(** * SMCBridge: the key codec, the two-phase read protocol and the value decoder

    A shallow embedding of [SMCBridge/SMCBridge.c].

    - C integers are [Z] with the wrap-around of their type written out
      ([int] and [int16_t] as two's complement, [uint32_t] modulo 2^32).
      A left shift of an [int] into or past the sign bit is given the value
      the target compilers compute, the two's-complement wrap.
    - [char] and [uint8_t] objects are [Byte.byte]; a buffer is a [list byte].
    - A [double] is a primitive binary64 [float].
    - A read or write through a pointer outside the extent of the object it
      points to has no defined result: the functions that take a pointer
      return [option], and [None] stands for that undefined behaviour.
    - The structured call into the kernel is the one effect of the program:
      a computation is a tree of calls ([prog]), run against any handler
      that plays the kernel, with the exchanges recorded in order.

    The definitions come first, those that embed the source, then those
    that word the specification (the decode table, the big-endian readings,
    the two requests of the protocol) and the controllers used as examples;
    the properties follow, by component. *)

From Stdlib Require Import ZArith List Lia Bool Floats.
From Stdlib Require Import Strings.Byte Strings.String.
Import ListNotations.

#[local] Open Scope Z_scope.

(** ** Machine integers *)

Module Int.

(** Value of a mathematical integer once stored in a [uint32_t]. *)
Definition to_uint32 (z : Z) : Z := z mod 2 ^ 32.

(** Value of a mathematical integer once stored in a [uint16_t]. *)
Definition to_uint16 (z : Z) : Z := z mod 2 ^ 16.

(** Value of a mathematical integer once stored in an [int] (32 bits). *)
Definition to_int (z : Z) : Z := (z + 2 ^ 31) mod 2 ^ 32 - 2 ^ 31.

(** Value of a mathematical integer once stored in an [int16_t]. *)
Definition to_int16 (z : Z) : Z := (z + 2 ^ 15) mod 2 ^ 16 - 2 ^ 15.

(** [a << n] at type [int], for a shift count the type allows. *)
Definition shl (a n : Z) : Z := to_int (Z.shiftl a n).

(** [a << n] at type [int]; a count outside [0, 32) is undefined. *)
Definition shl_checked (a n : Z) : option Z :=
  if (0 <=? n) && (n <? 32) then Some (shl a n) else None.

(** [a >> n] at type [uint32_t]; a count outside [0, 32) is undefined. *)
Definition shru_checked (a n : Z) : option Z :=
  if (0 <=? n) && (n <? 32) then Some (Z.shiftr a n) else None.

End Int.

(** ** Undefined behaviour as [None] *)

Definition obind {A B : Type} (m : option A) (f : A -> option B) : option B :=
  match m with
  | Some a => f a
  | None => None
  end.

Notation "'let?' x ':=' m 'in' k" := (obind m (fun x => k))
  (at level 10, x name, m at level 100, k at level 200).

(** [for (int i = from; i < from + n; i++) body], threading the variables
    the body assigns through [s]. *)
Fixpoint for_loop {T : Type} (n : nat) (i : Z) (body : Z -> T -> option T)
    (s : T) : option T :=
  match n with
  | O => Some s
  | S n' => let? s' := body i s in for_loop n' (i + 1) body s'
  end.

(** ** Bytes and C strings *)

Definition NUL : byte := x00.

Definition Z_of_byte (b : byte) : Z := Z.of_N (Byte.to_N b).

(** The byte that holds the low eight bits of [z]. *)
Definition byte_of_Z (z : Z) : byte :=
  match Byte.of_N (Z.to_N (z mod 256)) with
  | Some b => b
  | None => NUL
  end.

(** A string literal of the source: its characters followed by the
    terminator. *)
Definition cstr (s : string) : list byte := list_byte_of_string s ++ [NUL].

(** [strcmp]: the two buffers are compared as C strings, byte by byte up to
    and including the first terminator; the sign of the result is that of the
    first differing pair, read as [unsigned char].  The end of a buffer is
    read as a terminator (the arrays compared here all end in one). *)
Fixpoint strcmp (s1 s2 : list byte) : Z :=
  match s1, s2 with
  | c1 :: r1, c2 :: r2 =>
      if Byte.eqb c1 c2
      then (if Byte.eqb c1 NUL then 0 else strcmp r1 r2)
      else Z_of_byte c1 - Z_of_byte c2
  | c1 :: _, [] => Z_of_byte c1
  | [], c2 :: _ => - Z_of_byte c2
  | [], [] => 0
  end.

(** Store [b] at index [i] of a buffer; [None] outside the buffer. *)
Fixpoint store (buf : list byte) (i : nat) (b : byte) : option (list byte) :=
  match buf, i with
  | [], _ => None
  | _ :: rest, O => Some (b :: rest)
  | c :: rest, S j => option_map (cons c) (store rest j b)
  end.

(** Read index [i] of a buffer; [None] outside the buffer. *)
Definition load (buf : list byte) (i : Z) : option byte :=
  if i <? 0 then None else nth_error buf (Z.to_nat i).

(** ** Doubles *)

(** Conversion of an integer value to [double]; exact below 2^53 in
    magnitude, which covers every integer type of the program. *)
Definition double_of_int (z : Z) : float :=
  if Z.ltb z 0
  then PrimFloat.opp (PrimFloat.of_uint63 (Uint63.of_Z (Z.opp z)))
  else PrimFloat.of_uint63 (Uint63.of_Z z).

(** The [float] object whose representation is the 32 bits [bits], widened
    to [double]: sign in bit 31, biased exponent in bits 30..23, fraction in
    bits 22..0. *)
Definition double_of_float_bits (bits : Z) : float :=
  let sign := Z.testbit bits 31 in
  let e := Z.land (Z.shiftr bits 23) 255 in
  let m := Z.land bits (2 ^ 23 - 1) in
  if Z.eqb e 255 then
    (if Z.eqb m 0 then (if sign then neg_infinity else infinity) else nan)
  else if Z.eqb e 0 then
    match m with
    | Zpos p => SF2Prim (S754_finite sign p (-149))
    | _ => if sign then neg_zero else zero
    end
  else
    match (m + 2 ^ 23)%Z with
    | Zpos p => SF2Prim (S754_finite sign p (e - 150)%Z)
    | _ => nan
    end.

(** ** The value record *)

Module SMCVal.

(** [SMCVal_t]. *)
Record t : Type := mk {
  key : list byte;        (* char key[5] *)
  dataSize : Z;           (* uint32_t *)
  dataType : list byte;   (* char dataType[5] *)
  bytes : list byte       (* uint8_t bytes[32] *)
}.

(** The record after [memset(val, 0, sizeof(SMCVal_t))]. *)
Definition zero : t :=
  mk (repeat NUL 5) 0 (repeat NUL 5) (repeat NUL 32).

(** The arrays have the extent their declarations give them, and the type
    tag is terminated. *)
Definition wf (v : t) : Prop :=
  List.length (key v) = 5%nat /\
  List.length (dataType v) = 5%nat /\
  nth 4 (dataType v) NUL = NUL /\
  List.length (bytes v) = 32%nat.

Definition set_key (v : t) (k : list byte) : t :=
  mk k (dataSize v) (dataType v) (bytes v).

Definition set_dataSize (v : t) (n : Z) : t :=
  mk (key v) n (dataType v) (bytes v).

Definition set_dataType (v : t) (ty : list byte) : t :=
  mk (key v) (dataSize v) ty (bytes v).

Definition set_bytes (v : t) (bs : list byte) : t :=
  mk (key v) (dataSize v) (dataType v) bs.

(** [val->bytes[i]] for a constant index inside the array. *)
Definition byte_at (v : t) (i : nat) : Z := Z_of_byte (nth i (bytes v) NUL).

End SMCVal.

(** ** The value decoder *)

(** [convertValue]. *)
Definition convertValue (val : SMCVal.t) : float :=
  let b := SMCVal.byte_at val in
  if Z.eqb (SMCVal.dataSize val) 0 then 0%float
  else if Z.eqb (strcmp (SMCVal.dataType val) (cstr "sp78")) 0
          && Z.eqb (SMCVal.dataSize val) 2 then
    let value := Int.to_int16 (Z.lor (Int.shl (b 0%nat) 8) (b 1%nat)) in
    PrimFloat.div (double_of_int value) 256%float
  else if Z.eqb (strcmp (SMCVal.dataType val) (cstr "fpe2")) 0
          && Z.eqb (SMCVal.dataSize val) 2 then
    let value := Int.to_uint16 (Z.lor (Int.shl (b 0%nat) 8) (b 1%nat)) in
    PrimFloat.div (double_of_int value) 4%float
  else if Z.eqb (strcmp (SMCVal.dataType val) (cstr "flt ")) 0
          && Z.eqb (SMCVal.dataSize val) 4 then
    let bits :=
      Int.to_uint32
        (Z.lor (Z.lor (Z.lor (Int.shl (b 0%nat) 24) (Int.shl (b 1%nat) 16))
                      (Int.shl (b 2%nat) 8))
               (b 3%nat)) in
    double_of_float_bits bits
  else if Z.eqb (strcmp (SMCVal.dataType val) (cstr "ui8 ")) 0 then
    double_of_int (b 0%nat)
  else if Z.eqb (strcmp (SMCVal.dataType val) (cstr "ui16")) 0
          && Z.eqb (SMCVal.dataSize val) 2 then
    double_of_int (Z.lor (Int.shl (b 0%nat) 8) (b 1%nat))
  else if Z.eqb (strcmp (SMCVal.dataType val) (cstr "ui32")) 0
          && Z.eqb (SMCVal.dataSize val) 4 then
    double_of_int
      (Z.lor (Z.lor (Z.lor (Int.shl (b 0%nat) 24) (Int.shl (b 1%nat) 16))
                    (Int.shl (b 2%nat) 8))
             (b 3%nat))
  else 0%float.

(** A value record with the given tag, declared size and leading payload
    bytes, the rest of the payload zero. *)
Definition sample (tag : string) (size : Z) (payload : list byte) : SMCVal.t :=
  SMCVal.mk (repeat NUL 5) size (cstr tag)
            (payload ++ repeat NUL (32 - List.length payload)).

(** ** Copies *)

(** [strncpy(dest, src, n)]: the characters of [src] up to its terminator,
    at most [n] of them, then terminators up to [n] bytes in all.  Reading
    [src] past its extent before either bound is met is undefined. *)
Fixpoint strncpy_chars (src : list byte) (n : nat) {struct n}
    : option (list byte) :=
  match n with
  | O => Some []
  | S n' =>
      match src with
      | [] => None
      | c :: rest =>
          if Byte.eqb c NUL then Some (repeat NUL n)
          else option_map (cons c) (strncpy_chars rest n')
      end
  end.

Definition strncpy (dest src : list byte) (n : nat) : option (list byte) :=
  let? chars := strncpy_chars src n in
  if (n <=? List.length dest)%nat then Some (chars ++ skipn n dest) else None.

(** [memcpy(dest, src, n)] between two array members whose extent is at
    least [n]. *)
Definition memcpy (dest src : list byte) (n : nat) : list byte :=
  firstn n src ++ skipn n dest.

(** ** The key codec *)

(** One iteration of the loop of [strtoul_b]; both branches on [base] are
    the same expression, as in the source. *)
Definition strtoul_b_body (str : list byte) (size base : Z) (i total : Z)
    : option Z :=
  let? c := load str i in
  if base =? 16 then
    let? d := Int.shl_checked (Z_of_byte c) ((size - 1 - i) * 8) in
    Some (Int.to_uint32 (total + Int.to_uint32 d))
  else
    let? d := Int.shl_checked (Z_of_byte c) ((size - 1 - i) * 8) in
    Some (Int.to_uint32 (total + Int.to_uint32 d)).

(** [strtoul_b]. *)
Definition strtoul_b (str : list byte) (size base : Z) : option Z :=
  let total := 0 in
  for_loop (Z.to_nat size) 0 (strtoul_b_body str size base) total.

(** One iteration of the loop of [ultoa_b]. *)
Definition ultoa_b_body (val size : Z) (i : Z) (str : list byte)
    : option (list byte) :=
  let? d := Int.shru_checked val ((size - 1 - i) * 8) in
  store str (Z.to_nat i) (byte_of_Z (Z.land d 255)).

(** [ultoa_b]; the result is the buffer [str] after the call. *)
Definition ultoa_b (val : Z) (str : list byte) (size : Z)
    : option (list byte) :=
  for_loop (Z.to_nat size) 0 (ultoa_b_body val size) str.

(** ** The wire record *)

Module SMCParam.

Record keyInfo_t : Type := mkInfo {
  dataSize : Z;         (* uint32_t *)
  dataType : Z;         (* uint32_t *)
  dataAttributes : Z    (* uint8_t *)
}.

(** [SMCParamStruct]. *)
Record t : Type := mk {
  key : Z;              (* uint32_t *)
  keyInfo : keyInfo_t;
  result : Z;           (* uint8_t *)
  status : Z;           (* uint8_t *)
  data8 : Z;            (* uint8_t *)
  data32 : Z;           (* uint32_t *)
  bytes : list byte     (* uint8_t bytes[32] *)
}.

(** The record after [memset(&s, 0, sizeof(SMCParamStruct))]. *)
Definition zero : t := mk 0 (mkInfo 0 0 0) 0 0 0 0 (repeat NUL 32).

Definition set_key (s : t) (k : Z) : t :=
  mk k (keyInfo s) (result s) (status s) (data8 s) (data32 s) (bytes s).

Definition set_data8 (s : t) (d : Z) : t :=
  mk (key s) (keyInfo s) (result s) (status s) d (data32 s) (bytes s).

Definition set_keyInfo_dataSize (s : t) (n : Z) : t :=
  mk (key s)
     (mkInfo n (dataType (keyInfo s)) (dataAttributes (keyInfo s)))
     (result s) (status s) (data8 s) (data32 s) (bytes s).

(** [sizeof(SMCParamStruct)] under the natural alignment of its members:
    4, then 4 + 4 + 1 padded to 12, then 1 + 1 + 1 padded to 4, then 4,
    then 32. *)
Definition sizeof : Z := 56.

End SMCParam.

(** The constants of the source. *)
Definition KERNEL_INDEX_SMC : Z := 2.
Definition SMC_CMD_READ_BYTES : Z := 5.
Definition SMC_CMD_READ_KEYINFO : Z := 9.

(** The types and the success status of the IOKit headers the source
    includes: a status is an [int], a connection is a port name, and
    [kIOReturnSuccess] is 0. *)
Definition kern_return_t : Type := Z.
Definition io_connect_t : Type := Z.
Definition kIOReturnSuccess : kern_return_t := 0.

(** ** The transport *)

(** One call of [IOConnectCallStructMethod]: the connection, the selector,
    the input record and its size, the content of the output record before
    the call and its size. *)
Record StructCall : Type := mkCall {
  connection : io_connect_t;
  selector : Z;
  inputStruct : SMCParam.t;
  inputStructCnt : Z;
  outputStruct : SMCParam.t;
  outputStructCnt : Z
}.

(** What a call gives back: its status and the output record after it. *)
Definition Reply : Type := (kern_return_t * SMCParam.t)%type.

(** A computation that returns an [A]: it finishes, or it runs into
    undefined behaviour, or it issues a structured call and goes on with the
    reply. *)
Inductive prog (A : Type) : Type :=
| Ret (a : A)
| Undef
| Invoke (c : StructCall) (k : Reply -> prog A).

Arguments Ret {A} a.
Arguments Undef {A}.
Arguments Invoke {A} c k.

Fixpoint bind {A B : Type} (p : prog A) (f : A -> prog B) : prog B :=
  match p with
  | Ret a => f a
  | Undef => Undef
  | Invoke c k => Invoke c (fun r => bind (k r) f)
  end.

Definition lift {A : Type} (m : option A) : prog A :=
  match m with
  | Some a => Ret a
  | None => Undef
  end.

Notation "'do' x '<-' p ';' k" := (bind p (fun x => k))
  (at level 10, x pattern, p at level 100, k at level 200).

(** The primitive of IOKit: one blocking exchange with the kernel service.
    Its input record is read only; what it answers is up to the kernel, so
    it is the one event of [prog]. *)
Definition IOConnectCallStructMethod (conn : io_connect_t) (index : Z)
    (input : SMCParam.t) (inputCnt : Z) (output : SMCParam.t) (outputCnt : Z)
    : prog Reply :=
  Invoke (mkCall conn index input inputCnt output outputCnt) Ret.

(** [SMCCall]. *)
Definition SMCCall (conn : io_connect_t) (index : Z)
    (inputStruct outputStruct : SMCParam.t) : prog Reply :=
  let inputStructSize := SMCParam.sizeof in
  let outputStructSize := SMCParam.sizeof in
  IOConnectCallStructMethod conn index inputStruct inputStructSize
                            outputStruct outputStructSize.

(** [SMCReadKey2].  [key] is the object the pointer argument points to;
    [val] is an out parameter, cleared before any use, so the model returns
    its content at the return. *)
Definition SMCReadKey2 (conn : io_connect_t) (key : list byte)
    : prog (kern_return_t * SMCVal.t) :=
  let inputStruct := SMCParam.zero in
  let outputStruct := SMCParam.zero in
  let val := SMCVal.zero in
  do val_key <- lift (strncpy (SMCVal.key val) key 4);
  let val := SMCVal.set_key val val_key in
  do k <- lift (strtoul_b key 4 16);
  let inputStruct := SMCParam.set_key inputStruct k in
  let inputStruct := SMCParam.set_data8 inputStruct SMC_CMD_READ_KEYINFO in
  do r <- SMCCall conn KERNEL_INDEX_SMC inputStruct outputStruct;
  let result := fst r in
  let outputStruct := snd r in
  if negb (result =? kIOReturnSuccess) then Ret (result, val) else
  let val :=
    SMCVal.set_dataSize val
      (SMCParam.dataSize (SMCParam.keyInfo outputStruct)) in
  do val_dataType <-
    lift (ultoa_b (SMCParam.dataType (SMCParam.keyInfo outputStruct))
                  (SMCVal.dataType val) 4);
  let val := SMCVal.set_dataType val val_dataType in
  let inputStruct :=
    SMCParam.set_keyInfo_dataSize inputStruct (SMCVal.dataSize val) in
  let inputStruct := SMCParam.set_data8 inputStruct SMC_CMD_READ_BYTES in
  do r <- SMCCall conn KERNEL_INDEX_SMC inputStruct outputStruct;
  let result := fst r in
  let outputStruct := snd r in
  if negb (result =? kIOReturnSuccess) then Ret (result, val) else
  let val :=
    SMCVal.set_bytes val
      (memcpy (SMCVal.bytes val) (SMCParam.bytes outputStruct) 32) in
  Ret (kIOReturnSuccess, val).

(** [SMCReadKey].  [value] is the content of the caller's output location
    before the call; the second component of the result is its content
    after. *)
Definition SMCReadKey (conn : io_connect_t) (key : list byte) (value : float)
    : prog (kern_return_t * float) :=
  do r <- SMCReadKey2 conn key;
  let result := fst r in
  let val := snd r in
  let value := if result =? kIOReturnSuccess then convertValue val else value in
  Ret (result, value).

(** ** Running a computation against a kernel *)

Section Run.

Context {K : Type}.

(** The kernel side of the structured call: from a call and the state of
    the controller, a reply and the next state. *)
Variable handler : StructCall -> K -> Reply * K.

(** The result ([None] for undefined behaviour), the final state of the
    controller, and the exchanges in the order they were made. *)
Fixpoint run {A : Type} (p : prog A) (s : K)
    : option A * K * list (StructCall * Reply) :=
  match p with
  | Ret a => (Some a, s, [])
  | Undef => (None, s, [])
  | Invoke c k =>
      let '(r, s1) := handler c s in
      let '(a, s2, tr) := run (k r) s1 in
      (a, s2, (c, r) :: tr)
  end.

End Run.

(** ** The decode table of the specification *)

(** What a row of the table asks of the declared size. *)
Inductive size_rule : Type :=
| AnySize
| Exactly (n : Z).

(** The rows of the decode table, in the order the rules are tried. *)
Definition decode_table : list (string * size_rule) :=
  [ ("sp78", Exactly 2); ("fpe2", Exactly 2); ("flt ", Exactly 4);
    ("ui8 ", AnySize); ("ui16", Exactly 2); ("ui32", Exactly 4) ]%string.

Fixpoint bytes_eqb (a b : list byte) : bool :=
  match a, b with
  | [], [] => true
  | x :: a', y :: b' => Byte.eqb x y && bytes_eqb a' b'
  | _, _ => false
  end.

Definition row_matches (tag : list byte) (size : Z)
    (row : string * size_rule) : bool :=
  bytes_eqb tag (list_byte_of_string (fst row))
  && match snd row with
     | AnySize => true
     | Exactly n => size =? n
     end.

(** Some row of the table matches the pair (type tag, declared size). *)
Definition in_table (tag : list byte) (size : Z) : bool :=
  existsb (row_matches tag size) decode_table.

(** ** Big-endian readings, as the specification words them *)

(** Four bytes read as an unsigned 32-bit big-endian integer. *)
Definition be_uint32 (b0 b1 b2 b3 : byte) : Z :=
  Z_of_byte b0 * 2 ^ 24 + Z_of_byte b1 * 2 ^ 16 + Z_of_byte b2 * 2 ^ 8
  + Z_of_byte b3.

(** Two bytes read as an unsigned 16-bit big-endian integer. *)
Definition be_uint16 (b0 b1 : byte) : Z := Z_of_byte b0 * 2 ^ 8 + Z_of_byte b1.

(** Two bytes read as a signed 16-bit big-endian two's-complement integer. *)
Definition be_int16 (b0 b1 : byte) : Z :=
  let u := be_uint16 b0 b1 in
  if u <? 2 ^ 15 then u else u - 2 ^ 16.

(** Every byte, in increasing order. *)
Definition all_bytes : list byte := map byte_of_Z (map Z.of_nat (seq 0 256)).

(** The quotient by 256.0 of the [sp78] reading of two bytes loses nothing:
    multiplied back by 256.0 it is the integer again. *)
Definition sp78_exact (b0 b1 : byte) : bool :=
  PrimFloat.eqb
    (PrimFloat.mul
       (PrimFloat.div (double_of_int (be_int16 b0 b1)) 256%float) 256%float)
    (double_of_int (be_int16 b0 b1)).

(** ** The two-phase protocol, as the specification words it *)

(** The metadata-phase request: the encoded key, the selector "read key
    info", every other field zero. *)
Definition key_info_request (conn : io_connect_t) (k : Z) : StructCall :=
  mkCall conn KERNEL_INDEX_SMC
         (SMCParam.mk k (SMCParam.mkInfo 0 0 0) 0 0 SMC_CMD_READ_KEYINFO 0
                      (repeat NUL 32))
         SMCParam.sizeof SMCParam.zero SMCParam.sizeof.

(** The data-phase request: the same encoded key, the selector "read
    bytes", the declared size echoed back, every other field zero.  The
    output record still holds the reply of the metadata phase. *)
Definition read_bytes_request (conn : io_connect_t) (k size : Z)
    (previous : SMCParam.t) : StructCall :=
  mkCall conn KERNEL_INDEX_SMC
         (SMCParam.mk k (SMCParam.mkInfo size 0 0) 0 0 SMC_CMD_READ_BYTES 0
                      (repeat NUL 32))
         SMCParam.sizeof previous SMCParam.sizeof.

(** The declared size a reply of the metadata phase carries. *)
Definition declared_size (r : Reply) : Z :=
  SMCParam.dataSize (SMCParam.keyInfo (snd r)).

(** The type tag as text: one byte per character, most significant first. *)
Definition type_tag (e : Z) : list byte :=
  [ byte_of_Z (Z.land (Z.shiftr e 24) 255);
    byte_of_Z (Z.land (Z.shiftr e 16) 255);
    byte_of_Z (Z.land (Z.shiftr e 8) 255);
    byte_of_Z (Z.land (Z.shiftr e 0) 255) ].

(** The typed value a reply of the metadata phase describes, for the key
    text [vk]; its payload is still clear. *)
Definition typed_value (vk : list byte) (r : Reply) : SMCVal.t :=
  SMCVal.mk vk (declared_size r)
            (type_tag (SMCParam.dataType (SMCParam.keyInfo (snd r))) ++ [NUL])
            (repeat NUL 32).

(** The typed value together with the payload of the data-phase reply. *)
Definition read_value (vk : list byte) (r1 r2 : Reply) : SMCVal.t :=
  SMCVal.set_bytes (typed_value vk r1) (firstn 32 (SMCParam.bytes (snd r2))).

(** Both phases were carried out, in order, and both succeeded. *)
Definition both_phases_succeeded (tr : list (StructCall * Reply)) : Prop :=
  exists q1 r1 q2 r2,
    tr = [(q1, r1); (q2, r2)]
    /\ SMCParam.data8 (inputStruct q1) = SMC_CMD_READ_KEYINFO
    /\ SMCParam.data8 (inputStruct q2) = SMC_CMD_READ_BYTES
    /\ fst r1 = kIOReturnSuccess
    /\ fst r2 = kIOReturnSuccess.

Section Protocol.

Context {K : Type}.
Variable handler : StructCall -> K -> Reply * K.

(** The read of the key encoded as [k], with key text [vk]: one exchange
    when the metadata phase fails, two otherwise; the status of the last
    exchange is the result. *)
Definition two_phase (conn : io_connect_t) (k : Z) (vk : list byte) (s : K)
    : option (kern_return_t * SMCVal.t) * K * list (StructCall * Reply) :=
  let q1 := key_info_request conn k in
  let '(r1, s1) := handler q1 s in
  if fst r1 =? kIOReturnSuccess then
    let q2 := read_bytes_request conn k (declared_size r1) (snd r1) in
    let '(r2, s2) := handler q2 s1 in
    if fst r2 =? kIOReturnSuccess
    then (Some (kIOReturnSuccess, read_value vk r1 r2), s2,
          [(q1, r1); (q2, r2)])
    else (Some (fst r2, typed_value vk r1), s2, [(q1, r1); (q2, r2)])
  else (Some (fst r1, SMCVal.set_key SMCVal.zero vk), s1, [(q1, r1)]).

End Protocol.

(** ** Controllers to run the protocol against *)

(** A status other than success (the value of [kIOReturnNotPrivileged]). *)
Definition some_failure : kern_return_t := -536870207.

(** A controller that knows one sensor, of type [sp78] and size 2, reading
    25.5; its state counts the calls it has served. *)
Definition fake_smc (c : StructCall) (served : nat) : Reply * nat :=
  if SMCParam.data8 (inputStruct c) =? SMC_CMD_READ_KEYINFO then
    ((kIOReturnSuccess,
      SMCParam.mk 0 (SMCParam.mkInfo 2 1936734008 0) 0 0 0 0 (repeat NUL 32)),
     S served)
  else
    ((kIOReturnSuccess,
      SMCParam.mk 0 (SMCParam.mkInfo 0 0 0) 0 0 0 0
                  ([x19; x80] ++ repeat NUL 30)),
     S served).

(** A controller that refuses every call. *)
Definition refusing_smc (c : StructCall) (served : nat) : Reply * nat :=
  ((some_failure, outputStruct c), S served).

(** A controller that answers the metadata phase and refuses the data
    phase. *)
Definition half_refusing_smc (c : StructCall) (served : nat) : Reply * nat :=
  if SMCParam.data8 (inputStruct c) =? SMC_CMD_READ_KEYINFO
  then fake_smc c served
  else refusing_smc c served.

(** The exchanges of a read of TC0P against [fake_smc]. *)
Definition fake_exchanges : list (StructCall * Reply) :=
  Eval vm_compute in snd (run fake_smc (SMCReadKey2 7 (cstr "TC0P")) 0%nat).

(** The exchanges of a read of TC0P against [refusing_smc]. *)
Definition refused_exchanges : list (StructCall * Reply) :=
  Eval vm_compute in
    snd (run refusing_smc (SMCReadKey2 7 (cstr "TC0P")) 0%nat).

(** The value record the read against [fake_smc] leaves. *)
Definition fake_value : SMCVal.t :=
  Eval vm_compute in
    match fst (fst (run fake_smc (SMCReadKey2 7 (cstr "TC0P")) 0%nat)) with
    | Some r => snd r
    | None => SMCVal.zero
    end.

(** ** Further readings and checks *)

(** A sequence of bytes read as an unsigned big-endian integer. *)
Definition be_value (l : list byte) : Z :=
  fold_left (fun acc b => acc * 256 + Z_of_byte b) l 0.

(** The quotient by 4.0 of the [fpe2] reading of two bytes loses nothing
    and lies between 0.0 and 16383.75. *)
Definition fpe2_check (b0 b1 : byte) : bool :=
  let q := PrimFloat.div (double_of_int (be_uint16 b0 b1)) 4%float in
  PrimFloat.eqb (PrimFloat.mul q 4%float) (double_of_int (be_uint16 b0 b1))
  && PrimFloat.leb 0%float q
  && PrimFloat.leb q 16383.75%float.

(** The [double] of the [ui16] reading of two bytes lies between 0.0 and
    65535.0. *)
Definition ui16_check (b0 b1 : byte) : bool :=
  PrimFloat.leb 0%float (double_of_int (be_uint16 b0 b1))
  && PrimFloat.leb (double_of_int (be_uint16 b0 b1)) 65535%float.

(** What every request of a read looks like, whichever phase it is. *)
Definition well_formed_request (conn : io_connect_t) (q : StructCall) : Prop :=
  connection q = conn
  /\ selector q = KERNEL_INDEX_SMC
  /\ inputStructCnt q = SMCParam.sizeof
  /\ outputStructCnt q = SMCParam.sizeof
  /\ SMCParam.bytes (inputStruct q) = repeat NUL 32
  /\ SMCParam.data32 (inputStruct q) = 0
  /\ SMCParam.result (inputStruct q) = 0
  /\ SMCParam.status (inputStruct q) = 0.

(** ** Opening and closing the connection *)

(** The failure status of the IOKit headers, 0xe00002bc, as an [int]. *)
Definition kIOReturnError : kern_return_t := -536870212.

(** The calls into IOKit that open and close a connection, as they appear
    in a run.  The matching dictionary [IOServiceMatching] builds from the
    class name goes straight into the lookup, which consumes it: the lookup
    carries the name. *)
Inductive io_event : Type :=
| EvGetMatchingService (mainPort : Z) (name : string)
| EvServiceOpen (service owningTask type : Z)
| EvObjectRelease (object : Z)
| EvServiceClose (conn : io_connect_t).

(** A computation over those calls.  [IOServiceOpen] writes the location
    its last argument points to: the call carries the content before, the
    answer the content after. *)
Inductive life (A : Type) : Type :=
| Done (a : A)
| GetMatchingService (mainPort : Z) (name : string) (k : Z -> life A)
| ServiceOpen (service owningTask type : Z) (conn : io_connect_t)
    (k : kern_return_t * io_connect_t -> life A)
| ObjectRelease (object : Z) (k : kern_return_t -> life A)
| ServiceClose (conn : io_connect_t) (k : kern_return_t -> life A).

Arguments Done {A} a.
Arguments GetMatchingService {A} mainPort name k.
Arguments ServiceOpen {A} service owningTask type conn k.
Arguments ObjectRelease {A} object k.
Arguments ServiceClose {A} conn k.

(** The IOKit side: what each call answers, from the state of the
    registry. *)
Record IOKit (K : Type) : Type := mkIOKit {
  IOServiceGetMatchingService : Z -> string -> K -> Z * K;
  IOServiceOpen :
    Z -> Z -> Z -> io_connect_t -> K -> (kern_return_t * io_connect_t) * K;
  IOObjectRelease : Z -> K -> kern_return_t * K;
  IOServiceClose : io_connect_t -> K -> kern_return_t * K
}.

Arguments mkIOKit {K}.
Arguments IOServiceGetMatchingService {K} i.
Arguments IOServiceOpen {K} i.
Arguments IOObjectRelease {K} i.
Arguments IOServiceClose {K} i.

Fixpoint run_life {K A : Type} (io : IOKit K) (p : life A) (s : K)
    : A * K * list io_event :=
  match p with
  | Done a => (a, s, [])
  | GetMatchingService port name k =>
      let '(service, s1) := IOServiceGetMatchingService io port name s in
      let '(a, s2, tr) := run_life io (k service) s1 in
      (a, s2, EvGetMatchingService port name :: tr)
  | ServiceOpen service task type conn k =>
      let '(r, s1) := IOServiceOpen io service task type conn s in
      let '(a, s2, tr) := run_life io (k r) s1 in
      (a, s2, EvServiceOpen service task type :: tr)
  | ObjectRelease object k =>
      let '(r, s1) := IOObjectRelease io object s in
      let '(a, s2, tr) := run_life io (k r) s1 in
      (a, s2, EvObjectRelease object :: tr)
  | ServiceClose conn k =>
      let '(r, s1) := IOServiceClose io conn s in
      let '(a, s2, tr) := run_life io (k r) s1 in
      (a, s2, EvServiceClose conn :: tr)
  end.

Section Lifecycle.

(** The two globals of the platform the source passes on. *)
Variable kIOMainPortDefault : Z.
Variable mach_task_self_ : Z.

(** [SMCOpen].  [conn] is the content of the caller's location before the
    call; the second component of the result is its content after. *)
Definition SMCOpen (conn : io_connect_t)
    : life (kern_return_t * io_connect_t)%type :=
  GetMatchingService kIOMainPortDefault "AppleSMC" (fun service =>
  if service =? 0 then Done (kIOReturnError, conn) else
  ServiceOpen service mach_task_self_ 0 conn (fun r =>
  let result := fst r in
  let conn := snd r in
  ObjectRelease service (fun _ =>
  Done (result, conn)))).

(** [SMCClose]. *)
Definition SMCClose (conn : io_connect_t) : life kern_return_t :=
  ServiceClose conn (fun r => Done r).

End Lifecycle.

(** A registry with one service, number 77, that opens as connection 9;
    its state counts the objects the client holds. *)
Definition one_service : IOKit Z :=
  mkIOKit (fun _ _ held => (77, held + 1))
          (fun _ _ _ _ held => ((kIOReturnSuccess, 9), held))
          (fun _ held => (kIOReturnSuccess, held - 1))
          (fun _ held => (kIOReturnSuccess, held)).

(** A registry without the service. *)
Definition no_service : IOKit Z :=
  mkIOKit (fun _ _ held => (0, held))
          (fun _ _ _ conn held => ((kIOReturnError, conn), held))
          (fun _ held => (kIOReturnSuccess, held - 1))
          (fun _ held => (kIOReturnSuccess, held)).

(** A controller that answers every key with the type [tagv], the size
    [size] and the payload [payload]. *)
Definition typed_smc (tagv size : Z) (payload : list byte)
    (c : StructCall) (served : nat) : Reply * nat :=
  if SMCParam.data8 (inputStruct c) =? SMC_CMD_READ_KEYINFO then
    ((kIOReturnSuccess,
      SMCParam.mk 0 (SMCParam.mkInfo size tagv 0) 0 0 0 0 (repeat NUL 32)),
     S served)
  else
    ((kIOReturnSuccess,
      SMCParam.mk 0 (SMCParam.mkInfo 0 0 0) 0 0 0 0
                  (payload ++ repeat NUL (32 - List.length payload))),
     S served).

(** ** Tactics *)

(** Writes the powers of two of the integer types as numerals. *)
Ltac pow2 :=
  change (2 ^ 0) with 1 in *; change (2 ^ 8) with 256 in *;
  change (2 ^ 15) with 32768 in *; change (2 ^ 16) with 65536 in *;
  change (2 ^ 24) with 16777216 in *; change (2 ^ 31) with 2147483648 in *;
  change (2 ^ 32) with 4294967296 in *.

(** Linear arithmetic with division and remainder by those numerals. *)
Ltac divmod := pow2; Z.div_mod_to_equations; lia.

(** Evaluates the comparisons of closed strings in the goal. *)
Ltac eval_tag_tests :=
  repeat match goal with
  | |- context [Z.eqb (strcmp ?a ?b) 0] =>
      let r := eval vm_compute in (Z.eqb (strcmp a b) 0) in
      change (Z.eqb (strcmp a b) 0) with r
  end.

(** Opens the value record of the goal, replaces its fields by what the
    hypotheses say of them, and evaluates the chain of tests of the decoder
    as far as it is decided. *)
Ltac decode :=
  match goal with
  | v : SMCVal.t |- _ =>
      destruct v as [vkey vsize vtype vbytes]; cbn [SMCVal.dataType
        SMCVal.dataSize SMCVal.bytes SMCVal.key] in *; subst;
      unfold convertValue, SMCVal.byte_at;
      cbn [SMCVal.dataType SMCVal.dataSize SMCVal.bytes nth];
      eval_tag_tests
  end.

(** * Properties *)

(** ** Bytes *)

Lemma Z_of_byte_range (b : byte) : 0 <= Z_of_byte b < 256.
Proof.
  unfold Z_of_byte. pose proof (Byte.to_N_bounded b). lia.
Qed.

(** Brings the range of every byte of the context into it. *)
Ltac byte_ranges :=
  repeat match goal with
  | b : byte |- _ =>
      lazymatch goal with
      | _ : 0 <= Z_of_byte b < 256 |- _ => fail
      | _ => pose proof (Z_of_byte_range b)
      end
  end.

Lemma byte_of_Z_of_byte (b : byte) : byte_of_Z (Z_of_byte b) = b.
Proof.
  unfold byte_of_Z, Z_of_byte.
  pose proof (Byte.to_N_bounded b) as Hb.
  rewrite Z.mod_small by lia.
  rewrite N2Z.id, Byte.of_to_N. reflexivity.
Qed.

Lemma Z_of_byte_inj (a b : byte) : Z_of_byte a = Z_of_byte b -> a = b.
Proof.
  intros H. rewrite <- (byte_of_Z_of_byte a), <- (byte_of_Z_of_byte b).
  now rewrite H.
Qed.

Lemma byte_eqb_refl (b : byte) : Byte.eqb b b = true.
Proof. now apply Byte.byte_dec_lb. Qed.

Lemma bytes_eqb_eq (a b : list byte) : bytes_eqb a b = true <-> a = b.
Proof.
  revert b. induction a as [|x a IH]; intros [|y b]; simpl;
    try (split; [discriminate | discriminate]); [tauto|].
  rewrite andb_true_iff, IH. split.
  - intros [Hxy ->]. now apply Byte.byte_dec_bl in Hxy as ->.
  - intros [= -> ->]. split; [apply byte_eqb_refl | reflexivity].
Qed.

Lemma all_bytes_complete (b : byte) : In b all_bytes.
Proof.
  assert (H : existsb (Byte.eqb b) all_bytes = true)
    by (destruct b; vm_compute; reflexivity).
  apply existsb_exists in H as (x & Hin & Hx).
  now apply Byte.byte_dec_bl in Hx as ->.
Qed.

(** ** String comparison *)

(** Against a literal without an inner terminator, a terminated buffer of
    the same length compares equal exactly when it holds the same bytes. *)
Lemma strcmp_terminated (a b : list byte) :
  List.length a = List.length b ->
  forallb (fun c => negb (Byte.eqb c NUL)) b = true ->
  (strcmp (a ++ [NUL]) (b ++ [NUL]) =? 0) = bytes_eqb a b.
Proof.
  revert b. induction a as [|x a IH]; intros [|y b] Hlen Hnz;
    try discriminate; [reflexivity|].
  simpl in Hlen, Hnz. apply andb_true_iff in Hnz as [Hy Hnz].
  injection Hlen as Hlen. simpl.
  destruct (Byte.eqb x y) eqn:Exy.
  - apply Byte.byte_dec_bl in Exy as ->.
    apply negb_true_iff in Hy. rewrite Hy. simpl. now apply IH.
  - simpl. apply Z.eqb_neq. intros Hd.
    apply Byte.eqb_false in Exy. apply Exy, Z_of_byte_inj. lia.
Qed.

(** ** Bitwise assembly *)

(** Where the low [n] bits of [hi << n] are clear, [|] with a value below
    2^n is addition; [hi] may be negative. *)
Lemma lor_shiftl_add (hi lo n : Z) :
  0 <= n -> 0 <= lo < 2 ^ n ->
  Z.lor (Z.shiftl hi n) lo = hi * 2 ^ n + lo.
Proof.
  intros Hn Hlo.
  assert (Hland : Z.land (Z.shiftl hi n) lo = 0).
  { apply Z.bits_inj'. intros m Hm.
    rewrite Z.land_spec, Z.bits_0.
    destruct (Z.lt_ge_cases m n) as [Hlt|Hge].
    - now rewrite Z.shiftl_spec_low.
    - assert (Z.testbit lo m = false) as ->; [|apply andb_false_r].
      destruct (Z.eq_dec lo 0) as [->|Hne]; [apply Z.bits_0|].
      apply Z.bits_above_log2; [lia|].
      apply Z.lt_le_trans with n; [|exact Hge].
      apply Z.log2_lt_pow2; lia. }
  pose proof (Z.add_lor_land (Z.shiftl hi n) lo) as Hadd.
  rewrite Hland, Z.shiftl_mul_pow2 in Hadd by exact Hn.
  rewrite Z.shiftl_mul_pow2 by exact Hn. lia.
Qed.

(** A byte shifted at type [int] below the sign bit keeps its value. *)
Lemma shl_byte_low (b : byte) (n : Z) :
  n = 8 \/ n = 16 ->
  Int.shl (Z_of_byte b) n = Z.shiftl (Z_of_byte b) n.
Proof.
  byte_ranges. unfold Int.shl, Int.to_int.
  intros [-> | ->]; rewrite Z.shiftl_mul_pow2 by lia; divmod.
Qed.

(** A byte shifted by 24 at type [int] wraps when its top bit is set: the
    result is the byte read as a signed char, shifted. *)
Lemma shl_byte_24 (b : byte) :
  Int.shl (Z_of_byte b) 24
  = Z.shiftl (if Z_of_byte b <? 128 then Z_of_byte b else Z_of_byte b - 256)
             24.
Proof.
  byte_ranges. unfold Int.shl, Int.to_int.
  destruct (Z.ltb_spec (Z_of_byte b) 128);
    rewrite !Z.shiftl_mul_pow2 by lia; divmod.
Qed.

(** [(b0 << 8) | b1] at type [int]: no wrap-around, the plain big-endian
    value. *)
Lemma int_be16 (b0 b1 : byte) :
  Z.lor (Int.shl (Z_of_byte b0) 8) (Z_of_byte b1) = be_uint16 b0 b1.
Proof.
  byte_ranges. rewrite shl_byte_low by tauto.
  rewrite lor_shiftl_add by lia. reflexivity.
Qed.

(** [(b0 << 24) | (b1 << 16) | (b2 << 8) | b3] at type [int]: the
    big-endian value wrapped into the range of [int]. *)
Lemma int_be32 (b0 b1 b2 b3 : byte) :
  Z.lor (Z.lor (Z.lor (Int.shl (Z_of_byte b0) 24) (Int.shl (Z_of_byte b1) 16))
               (Int.shl (Z_of_byte b2) 8))
        (Z_of_byte b3)
  = Int.to_int (be_uint32 b0 b1 b2 b3).
Proof.
  byte_ranges.
  rewrite shl_byte_24, !shl_byte_low, <- !Z.lor_assoc by tauto.
  rewrite (lor_shiftl_add (Z_of_byte b2) (Z_of_byte b3) 8) by lia.
  rewrite (lor_shiftl_add (Z_of_byte b1) _ 16) by lia.
  rewrite (lor_shiftl_add _ _ 24) by (destruct (Z_of_byte b0 <? 128); lia).
  unfold Int.to_int, be_uint32.
  destruct (Z.ltb_spec (Z_of_byte b0) 128); divmod.
Qed.

Lemma to_int16_be (b0 b1 : byte) :
  Int.to_int16 (be_uint16 b0 b1) = be_int16 b0 b1.
Proof.
  byte_ranges. unfold Int.to_int16, be_int16, be_uint16.
  destruct (Z.ltb_spec (Z_of_byte b0 * 2 ^ 8 + Z_of_byte b1) (2 ^ 15)); divmod.
Qed.

(** The [int] the [ui32] branch converts is negative exactly when the top
    bit of the first byte is set. *)
Lemma to_int_be_uint32_sign (b0 b1 b2 b3 : byte) :
  (Z_of_byte b0 < 128 ->
   Int.to_int (be_uint32 b0 b1 b2 b3) = be_uint32 b0 b1 b2 b3)
  /\ (128 <= Z_of_byte b0 ->
      Int.to_int (be_uint32 b0 b1 b2 b3) = be_uint32 b0 b1 b2 b3 - 2 ^ 32
      /\ Int.to_int (be_uint32 b0 b1 b2 b3) < 0).
Proof.
  byte_ranges. unfold Int.to_int, be_uint32.
  split; [intros Hlow | intros Hhigh; split]; divmod.
Qed.

(** ** The value decoder *)

Example fpe2_one : convertValue (sample "fpe2" 2 [x00; x04]) = 1%float.
Proof. reflexivity. Qed.

Example flt_one :
  convertValue (sample "flt " 4 [x3f; x80; x00; x00]) = 1%float.
Proof. reflexivity. Qed.

Example ui16_high_bit :
  convertValue (sample "ui16" 2 [xff; xff]) = 65535%float.
Proof. reflexivity. Qed.

(** What the [ui32] branch returns, for every payload. *)
Lemma ui32_decode (v : SMCVal.t) (b0 b1 b2 b3 : byte) (rest : list byte) :
  SMCVal.dataType v = cstr "ui32" ->
  SMCVal.dataSize v = 4 ->
  SMCVal.bytes v = b0 :: b1 :: b2 :: b3 :: rest ->
  convertValue v = double_of_int (Int.to_int (be_uint32 b0 b1 b2 b3)).
Proof.
  intros Htag Hsize Hbytes. decode.
  cbn [Z.eqb Pos.eqb andb]. now rewrite int_be32.
Qed.

(** Below the sign bit the wrap-around is the identity, and the decoder
    returns the unsigned reading. *)
Lemma ui32_decode_small (v : SMCVal.t) (b0 b1 b2 b3 : byte)
    (rest : list byte) :
  SMCVal.dataType v = cstr "ui32" ->
  SMCVal.dataSize v = 4 ->
  SMCVal.bytes v = b0 :: b1 :: b2 :: b3 :: rest ->
  Z_of_byte b0 < 128 ->
  convertValue v = double_of_int (be_uint32 b0 b1 b2 b3).
Proof.
  intros Htag Hsize Hbytes Hsmall.
  rewrite (ui32_decode v b0 b1 b2 b3 rest Htag Hsize Hbytes).
  now rewrite (proj1 (to_int_be_uint32_sign b0 b1 b2 b3) Hsmall).
Qed.

(** C1, at the input where the code leaves the claim.  With the top bit of
    the first payload byte set, [(b0 << 24) | ...] is evaluated at type
    [int] and converted to [double] from there: bytes 80 00 00 00 decode to
    -2147483648.0, a negative number, where the unsigned 32-bit big-endian
    reading is 2147483648.0.  The bytes 00 00 01 00 decode to 256.0. *)
Theorem ui32_high_bit_decodes_negative :
  convertValue (sample "ui32" 4 [x80; x00; x00; x00]) = (-2147483648)%float
  /\ PrimFloat.ltb (convertValue (sample "ui32" 4 [x80; x00; x00; x00])) 0
     = true
  /\ double_of_int (be_uint32 x80 x00 x00 x00) = 2147483648%float
  /\ convertValue (sample "ui32" 4 [x80; x00; x00; x00])
     <> double_of_int (be_uint32 x80 x00 x00 x00)
  /\ convertValue (sample "ui32" 4 [x00; x00; x01; x00]) = 256%float.
Proof.
  repeat split; try reflexivity.
  intros H.
  apply (f_equal (fun x => PrimFloat.ltb x 0)) in H.
  vm_compute in H. discriminate H.
Qed.

(** C2.  A payload tagged [sp78] of declared size 2 decodes to its first two
    bytes, read as a signed 16-bit big-endian two's-complement integer,
    divided by 256.0; bytes 01 00 give 1.0 and bytes FF 00 give -1.0. *)
Theorem sp78_decode :
  (forall (v : SMCVal.t) (b0 b1 : byte) (rest : list byte),
     SMCVal.dataType v = cstr "sp78" ->
     SMCVal.dataSize v = 2 ->
     SMCVal.bytes v = b0 :: b1 :: rest ->
     convertValue v
     = PrimFloat.div (double_of_int (be_int16 b0 b1)) 256%float)
  /\ convertValue (sample "sp78" 2 [x01; x00]) = 1%float
  /\ convertValue (sample "sp78" 2 [xff; x00]) = (-1)%float.
Proof.
  split; [|split; reflexivity].
  intros v b0 b1 rest Htag Hsize Hbytes. decode.
  cbn [Z.eqb Pos.eqb andb]. now rewrite int_be16, to_int16_be.
Qed.

Lemma sp78_decode_witness :
  convertValue (sample "sp78" 2 [x12; x34])
  = PrimFloat.div (double_of_int (be_int16 x12 x34)) 256%float.
Proof.
  apply (proj1 sp78_decode (sample "sp78" 2 [x12; x34]) x12 x34
               (repeat NUL 30)); reflexivity.
Defined.

(** The division of the [sp78] branch is exact, for every pair of bytes. *)
Lemma sp78_division_exact (b0 b1 : byte) : sp78_exact b0 b1 = true.
Proof.
  assert (H : forallb (fun x => forallb (sp78_exact x) all_bytes) all_bytes
              = true) by (vm_compute; reflexivity).
  rewrite forallb_forall in H. specialize (H b0 (all_bytes_complete b0)).
  rewrite forallb_forall in H. exact (H b1 (all_bytes_complete b1)).
Qed.

(** Every byte converts to a [double] between 0.0 and 255.0. *)
Lemma double_of_byte_range (b : byte) :
  PrimFloat.leb 0 (double_of_int (Z_of_byte b)) = true
  /\ PrimFloat.leb (double_of_int (Z_of_byte b)) 255 = true.
Proof. destruct b; split; vm_compute; reflexivity. Qed.

(** What the [ui8 ] branch returns, for every nonzero declared size. *)
Lemma ui8_decode_first (v : SMCVal.t) (b0 : byte) (rest : list byte) :
  SMCVal.dataType v = cstr "ui8 " ->
  SMCVal.dataSize v <> 0 ->
  SMCVal.bytes v = b0 :: rest ->
  convertValue v = double_of_int (Z_of_byte b0).
Proof.
  intros Htag Hsize Hbytes. decode.
  apply Z.eqb_neq in Hsize. now rewrite Hsize.
Qed.

(** C9.  A payload tagged [ui8 ] of nonzero declared size decodes to its
    first byte as an unsigned number, between 0 and 255, whatever the
    declared size and the bytes that follow; a payload that starts with 2A
    decodes to 42.0. *)
Theorem ui8_decode :
  (forall (v : SMCVal.t) (b0 : byte) (rest : list byte),
     SMCVal.dataType v = cstr "ui8 " ->
     SMCVal.dataSize v <> 0 ->
     SMCVal.bytes v = b0 :: rest ->
     convertValue v = double_of_int (Z_of_byte b0)
     /\ 0 <= Z_of_byte b0 <= 255
     /\ PrimFloat.leb 0 (convertValue v) = true
     /\ PrimFloat.leb (convertValue v) 255 = true)
  /\ (forall (v w : SMCVal.t) (b0 : byte) (rest rest' : list byte),
        SMCVal.dataType v = cstr "ui8 " ->
        SMCVal.dataType w = cstr "ui8 " ->
        SMCVal.dataSize v <> 0 ->
        SMCVal.dataSize w <> 0 ->
        SMCVal.bytes v = b0 :: rest ->
        SMCVal.bytes w = b0 :: rest' ->
        convertValue v = convertValue w)
  /\ (forall (key : list byte) (size : Z) (rest : list byte),
        size <> 0 ->
        convertValue (SMCVal.mk key size (cstr "ui8 ") (x2a :: rest))
        = 42%float).
Proof.
  split; [|split].
  - intros v b0 rest Htag Hsize Hbytes.
    rewrite (ui8_decode_first v b0 rest Htag Hsize Hbytes).
    pose proof (Z_of_byte_range b0). pose proof (double_of_byte_range b0).
    repeat split; try lia; tauto.
  - intros v w b0 rest rest' Hv Hw Sv Sw Bv Bw.
    now rewrite (ui8_decode_first v b0 rest Hv Sv Bv),
                (ui8_decode_first w b0 rest' Hw Sw Bw).
  - intros key size rest Hsize.
    now rewrite (ui8_decode_first
                   (SMCVal.mk key size (cstr "ui8 ") (x2a :: rest))
                   x2a rest eq_refl Hsize eq_refl).
Qed.

Lemma ui8_decode_witness :
  (convertValue (sample "ui8 " 7 [x2a; xff; x01])
   = double_of_int (Z_of_byte x2a)
   /\ 0 <= Z_of_byte x2a <= 255
   /\ PrimFloat.leb 0 (convertValue (sample "ui8 " 7 [x2a; xff; x01])) = true
   /\ PrimFloat.leb (convertValue (sample "ui8 " 7 [x2a; xff; x01])) 255
      = true)
  /\ convertValue (sample "ui8 " 7 [x2a; xff; x01])
     = convertValue (sample "ui8 " 32 [x2a])
  /\ convertValue (SMCVal.mk [] 1 (cstr "ui8 ") (x2a :: [x07])) = 42%float.
Proof.
  split; [|split].
  - apply (proj1 ui8_decode (sample "ui8 " 7 [x2a; xff; x01]) x2a
                 ([xff; x01] ++ repeat NUL 29));
      [reflexivity | discriminate | reflexivity].
  - apply (proj1 (proj2 ui8_decode) (sample "ui8 " 7 [x2a; xff; x01])
                 (sample "ui8 " 32 [x2a]) x2a
                 ([xff; x01] ++ repeat NUL 29) (repeat NUL 31));
      first [reflexivity | discriminate].
  - apply (proj2 (proj2 ui8_decode) [] 1 [x07]). discriminate.
Defined.

(** C7.  A declared size of 0 decodes to 0.0 for every type tag and payload,
    a recognised tag such as [ui8 ] included; and every pair of type tag and
    declared size that no row of the table matches decodes to 0.0 as well.
    The decoder is a total function into [double]: it has no error result. *)
Theorem decoder_fallback :
  (forall v : SMCVal.t, SMCVal.dataSize v = 0 -> convertValue v = 0%float)
  /\ (forall (v : SMCVal.t) (tag : list byte),
        SMCVal.dataType v = tag ++ [NUL] ->
        List.length tag = 4%nat ->
        in_table tag (SMCVal.dataSize v) = false ->
        convertValue v = 0%float)
  /\ convertValue (sample "ui8 " 0 [x2a]) = 0%float
  /\ convertValue (sample "xyz " 2 [x01; x02]) = 0%float.
Proof.
  split; [|split; [|split; reflexivity]].
  - intros v Hsize. unfold convertValue. now rewrite Hsize.
  - intros v tag Htag Hlen Htab.
    destruct v as [vkey vsize vtype vbytes].
    cbn [SMCVal.dataType SMCVal.dataSize] in *. subst vtype.
    unfold convertValue. cbn [SMCVal.dataType SMCVal.dataSize].
    destruct (Z.eqb vsize 0); [reflexivity|].
    unfold cstr.
    rewrite !strcmp_terminated by (first [exact Hlen | reflexivity]).
    unfold in_table, decode_table, existsb, row_matches in Htab.
    cbn [fst snd] in Htab.
    repeat (apply orb_false_elim in Htab as [?Hrow Htab]).
    rewrite andb_true_r in Hrow2.
    now rewrite Hrow, Hrow0, Hrow1, Hrow2, Hrow3, Hrow4.
Qed.

Lemma decoder_fallback_witness :
  convertValue (sample "sp78" 0 [x01; x02]) = 0%float
  /\ convertValue (sample "ui16" 4 [x01; x02; x03; x04]) = 0%float.
Proof.
  split.
  - apply (proj1 decoder_fallback (sample "sp78" 0 [x01; x02])).
    reflexivity.
  - apply (proj1 (proj2 decoder_fallback)
                 (sample "ui16" 4 [x01; x02; x03; x04])
                 (list_byte_of_string "ui16")); reflexivity.
Defined.

(** ** The key codec *)

Lemma for_loop_4 {T : Type} (body : Z -> T -> option T) (s : T) :
  for_loop 4 0 body s
  = let? s1 := body 0 s in
    let? s2 := body 1 s1 in
    let? s3 := body 2 s2 in
    let? s4 := body 3 s3 in
    Some s4.
Proof. reflexivity. Qed.

(** An iteration of [strtoul_b] (size 4) whose read is inside the object. *)
Lemma strtoul_b_body_defined (str : list byte) (base i total : Z) (c : byte) :
  load str i = Some c ->
  0 <= i < 4 ->
  strtoul_b_body str 4 base i total
  = Some (Int.to_uint32
            (total + Int.to_uint32 (Int.shl (Z_of_byte c) ((4 - 1 - i) * 8)))).
Proof.
  intros Hload Hi. unfold strtoul_b_body, Int.shl_checked.
  rewrite Hload. cbn [obind].
  replace ((0 <=? (4 - 1 - i) * 8) && ((4 - 1 - i) * 8 <? 32)) with true
    by (symmetry; apply andb_true_iff; split;
        [apply Z.leb_le | apply Z.ltb_lt]; lia).
  now destruct (base =? 16).
Qed.

(** An iteration of [strtoul_b] whose read is outside the object. *)
Lemma strtoul_b_body_undefined (str : list byte) (size base i total : Z) :
  load str i = None -> strtoul_b_body str size base i total = None.
Proof. intros Hload. unfold strtoul_b_body. now rewrite Hload. Qed.

(** A byte shifted to one of the four byte positions of an [int] and
    converted to [uint32_t] is the byte at that position, top bit set or
    not. *)
Lemma to_uint32_shl_byte (c : byte) (n : Z) :
  n = 0 \/ n = 8 \/ n = 16 \/ n = 24 ->
  Int.to_uint32 (Int.shl (Z_of_byte c) n) = Z_of_byte c * 2 ^ n.
Proof.
  byte_ranges. unfold Int.to_uint32, Int.shl, Int.to_int.
  intros [-> | [-> | [-> | ->]]]; rewrite Z.shiftl_mul_pow2 by lia; divmod.
Qed.

Lemma be_uint32_range (c0 c1 c2 c3 : byte) :
  0 <= be_uint32 c0 c1 c2 c3 < 2 ^ 32.
Proof. byte_ranges. unfold be_uint32. lia. Qed.

(** The four bytes of a big-endian value, most significant first. *)
Lemma be_uint32_digits (c0 c1 c2 c3 : byte) :
  Z.shiftr (be_uint32 c0 c1 c2 c3) 24 = Z_of_byte c0
  /\ Z.land (Z.shiftr (be_uint32 c0 c1 c2 c3) 24) 255 = Z_of_byte c0
  /\ Z.land (Z.shiftr (be_uint32 c0 c1 c2 c3) 16) 255 = Z_of_byte c1
  /\ Z.land (Z.shiftr (be_uint32 c0 c1 c2 c3) 8) 255 = Z_of_byte c2
  /\ Z.land (Z.shiftr (be_uint32 c0 c1 c2 c3) 0) 255 = Z_of_byte c3.
Proof.
  byte_ranges. change 255 with (Z.ones 8).
  rewrite !Z.land_ones, !Z.shiftr_div_pow2 by lia.
  unfold be_uint32. repeat split; divmod.
Qed.

Lemma be_uint32_lor (c0 c1 c2 c3 : byte) :
  be_uint32 c0 c1 c2 c3
  = Z.lor (Z.lor (Z.lor (Z.shiftl (Z_of_byte c0) 24)
                        (Z.shiftl (Z_of_byte c1) 16))
                 (Z.shiftl (Z_of_byte c2) 8))
          (Z_of_byte c3).
Proof.
  byte_ranges. rewrite <- !Z.lor_assoc.
  rewrite (lor_shiftl_add (Z_of_byte c2) (Z_of_byte c3) 8) by lia.
  rewrite (lor_shiftl_add (Z_of_byte c1) _ 16) by lia.
  rewrite (lor_shiftl_add (Z_of_byte c0) _ 24) by lia.
  unfold be_uint32. lia.
Qed.

(** With four readable bytes, [strtoul_b] with size 4 returns their
    big-endian value, whatever [base] is. *)
Lemma strtoul_b_4 (c0 c1 c2 c3 : byte) (rest : list byte) (base : Z) :
  strtoul_b (c0 :: c1 :: c2 :: c3 :: rest) 4 base
  = Some (be_uint32 c0 c1 c2 c3).
Proof.
  byte_ranges.
  unfold strtoul_b. change (Z.to_nat 4) with 4%nat. rewrite for_loop_4.
  rewrite (strtoul_b_body_defined _ base 0 _ c0) by (reflexivity || lia).
  cbn [obind].
  rewrite (strtoul_b_body_defined _ base 1 _ c1) by (reflexivity || lia).
  cbn [obind].
  rewrite (strtoul_b_body_defined _ base 2 _ c2) by (reflexivity || lia).
  cbn [obind].
  rewrite (strtoul_b_body_defined _ base 3 _ c3) by (reflexivity || lia).
  cbn [obind].
  change ((4 - 1 - 0) * 8) with 24. change ((4 - 1 - 1) * 8) with 16.
  change ((4 - 1 - 2) * 8) with 8. change ((4 - 1 - 3) * 8) with 0.
  rewrite !to_uint32_shl_byte by tauto.
  f_equal. unfold Int.to_uint32, be_uint32. divmod.
Qed.

(** With fewer than four readable bytes, [strtoul_b] with size 4 reads
    outside the object. *)
Lemma strtoul_b_short (str : list byte) (base : Z) :
  (List.length str < 4)%nat -> strtoul_b str 4 base = None.
Proof.
  intros Hlen. unfold strtoul_b. change (Z.to_nat 4) with 4%nat.
  rewrite for_loop_4.
  destruct str as [|c0 [|c1 [|c2 [|c3 rest]]]]; [| | | | simpl in Hlen; lia];
    repeat first
      [ rewrite strtoul_b_body_undefined by reflexivity; reflexivity
      | erewrite strtoul_b_body_defined by (reflexivity || lia);
        cbn [obind] ].
Qed.

(** [ultoa_b] with size 4 on a buffer of at least four bytes. *)
Lemma ultoa_b_4 (val : Z) (a0 a1 a2 a3 : byte) (rest : list byte) :
  ultoa_b val (a0 :: a1 :: a2 :: a3 :: rest) 4 = Some (type_tag val ++ rest).
Proof. reflexivity. Qed.

Lemma type_tag_be_uint32 (c0 c1 c2 c3 : byte) :
  type_tag (be_uint32 c0 c1 c2 c3) = [c0; c1; c2; c3].
Proof.
  unfold type_tag.
  destruct (be_uint32_digits c0 c1 c2 c3) as (_ & -> & -> & -> & ->).
  now rewrite !byte_of_Z_of_byte.
Qed.

(** C3.  Encoding a key of four characters with [strtoul_b] (size 4, any
    [base]) and decoding the result with [ultoa_b] (size 4) gives the key
    back: the four bytes written are the four characters, and the rest of
    the buffer written into is untouched. *)
Theorem key_codec_roundtrip (k rest buf : list byte) (base : Z) :
  List.length k = 4%nat ->
  (4 <= List.length buf)%nat ->
  exists (e : Z) (buf' : list byte),
    strtoul_b (k ++ rest) 4 base = Some e
    /\ ultoa_b e buf 4 = Some buf'
    /\ firstn 4 buf' = k
    /\ skipn 4 buf' = skipn 4 buf
    /\ ultoa_b e (repeat NUL 4) 4 = Some k.
Proof.
  intros Hk Hbuf.
  destruct k as [|c0 [|c1 [|c2 [|c3 [|]]]]]; try discriminate Hk.
  destruct buf as [|a0 [|a1 [|a2 [|a3 tl]]]]; try (simpl in Hbuf; lia).
  exists (be_uint32 c0 c1 c2 c3), ([c0; c1; c2; c3] ++ tl).
  split; [apply strtoul_b_4|].
  change (repeat NUL 4) with [NUL; NUL; NUL; NUL].
  rewrite !ultoa_b_4, type_tag_be_uint32. repeat split; reflexivity.
Qed.

Lemma key_codec_roundtrip_witness :
  exists (e : Z) (buf' : list byte),
    strtoul_b (list_byte_of_string "TC0P" ++ [NUL]) 4 16 = Some e
    /\ ultoa_b e (repeat NUL 5) 4 = Some buf'
    /\ firstn 4 buf' = list_byte_of_string "TC0P"
    /\ skipn 4 buf' = skipn 4 (repeat NUL 5)
    /\ ultoa_b e (repeat NUL 4) 4 = Some (list_byte_of_string "TC0P").
Proof.
  apply (key_codec_roundtrip (list_byte_of_string "TC0P") [NUL]
                             (repeat NUL 5) 16).
  - reflexivity.
  - simpl. lia.
Defined.

(** C8.  For a key of four characters, [strtoul_b] with size 4 puts
    character 0 in the most significant eight bits of the 32-bit result and
    character 3 in the least significant eight; the encoding of TC0P is
    ('T' << 24) | ('C' << 16) | ('0' << 8) | 'P'. *)
Theorem key_packing_big_endian :
  (forall (c0 c1 c2 c3 : byte) (rest : list byte) (base : Z),
     exists e : Z,
       strtoul_b (c0 :: c1 :: c2 :: c3 :: rest) 4 base = Some e
       /\ 0 <= e < 2 ^ 32
       /\ Z.shiftr e 24 = Z_of_byte c0
       /\ Z.land (Z.shiftr e 16) 255 = Z_of_byte c1
       /\ Z.land (Z.shiftr e 8) 255 = Z_of_byte c2
       /\ Z.land e 255 = Z_of_byte c3
       /\ e = Z.lor (Z.lor (Z.lor (Z.shiftl (Z_of_byte c0) 24)
                                  (Z.shiftl (Z_of_byte c1) 16))
                           (Z.shiftl (Z_of_byte c2) 8))
                    (Z_of_byte c3))
  /\ strtoul_b (cstr "TC0P") 4 16
     = Some (Z.lor (Z.lor (Z.lor (Z.shiftl (Z_of_byte "T") 24)
                                 (Z.shiftl (Z_of_byte "C") 16))
                          (Z.shiftl (Z_of_byte "0") 8))
                   (Z_of_byte "P")).
Proof.
  split; [|reflexivity].
  intros c0 c1 c2 c3 rest base.
  destruct (be_uint32_digits c0 c1 c2 c3) as (D0 & _ & D1 & D2 & D3).
  exists (be_uint32 c0 c1 c2 c3).
  split; [apply strtoul_b_4|].
  split; [apply be_uint32_range|].
  rewrite Z.shiftr_0_r in D3.
  repeat split; try assumption. apply be_uint32_lor.
Qed.

(** A key of three characters still has four readable bytes, its
    terminator being the fourth: its encoding is that of the key padded
    with zero bytes. *)
Lemma strtoul_b_three_chars (c0 c1 c2 : byte) (base : Z) :
  strtoul_b ([c0; c1; c2] ++ [NUL]) 4 base
  = strtoul_b ([c0; c1; c2] ++ [NUL; NUL]) 4 base.
Proof. cbn [app]. now rewrite !strtoul_b_4. Qed.

(** C10, at the input where the code leaves the claim.  The key AB is an
    object of three bytes, A, B and the terminator.  [SMCReadKey2] encodes
    with size 4, so the loop of [strtoul_b] reads index 3, outside the
    object: the encoding has no defined value and the read has no defined
    outcome, where the key padded with zero bytes to four encodes to
    0x41420000.  The copy of the key made one line earlier by [strncpy]
    does stop at the terminator. *)
Theorem short_key_read_out_of_range :
  load (cstr "AB") 3 = None
  /\ strtoul_b (cstr "AB") 4 16 = None
  /\ strtoul_b (list_byte_of_string "AB" ++ [NUL; NUL]) 4 16
     = Some 1094844416
  /\ strncpy (SMCVal.key SMCVal.zero) (cstr "AB") 4
     = Some (list_byte_of_string "AB" ++ [NUL; NUL; NUL])
  /\ (forall conn : io_connect_t, SMCReadKey2 conn (cstr "AB") = Undef).
Proof. repeat split; reflexivity. Qed.

(** ** The transport *)

Section RunFacts.

Context {K : Type}.
Variable handler : StructCall -> K -> Reply * K.

(** Running a sequence: the first part, then the rest from the state it
    left, the exchanges of the first before those of the second; undefined
    behaviour in the first part ends the run. *)
Lemma run_bind {A B : Type} (p : prog A) (f : A -> prog B) (s : K) :
  run handler (bind p f) s
  = let '(a, s1, tr1) := run handler p s in
    match a with
    | Some x =>
        let '(b, s2, tr2) := run handler (f x) s1 in (b, s2, tr1 ++ tr2)
    | None => (None, s1, tr1)
    end.
Proof.
  revert s. induction p as [a| |c k IH]; intros s; cbn [bind run].
  - now destruct (run handler (f a) s) as [[b s2] tr2].
  - reflexivity.
  - destruct (handler c s) as [r s1]. rewrite IH.
    destruct (run handler (k r) s1) as [[[x|] s2] tr1]; [|reflexivity].
    now destruct (run handler (f x) s2) as [[b s3] tr2].
Qed.

(** The key text copied into the value record: defined as soon as the key
    has four readable bytes, and five bytes long. *)
Lemma strncpy_key_defined (c0 c1 c2 c3 : byte) (rest : list byte) :
  exists vk : list byte,
    strncpy (SMCVal.key SMCVal.zero) (c0 :: c1 :: c2 :: c3 :: rest) 4
    = Some vk
    /\ List.length vk = 5%nat.
Proof.
  unfold strncpy. cbn [strncpy_chars].
  destruct (Byte.eqb c0 NUL); [eexists; split; reflexivity|].
  destruct (Byte.eqb c1 NUL); [eexists; split; reflexivity|].
  destruct (Byte.eqb c2 NUL); [eexists; split; reflexivity|].
  destruct (Byte.eqb c3 NUL); eexists; split; reflexivity.
Qed.

(** The code carries out the two-phase protocol: on a key with four
    readable bytes, a run of [SMCReadKey2] is a run of [two_phase] on the
    encoded key. *)
Lemma run_SMCReadKey2 (conn : io_connect_t) (c0 c1 c2 c3 : byte)
    (rest : list byte) (s : K) :
  exists vk : list byte,
    strncpy (SMCVal.key SMCVal.zero) (c0 :: c1 :: c2 :: c3 :: rest) 4
    = Some vk
    /\ List.length vk = 5%nat
    /\ run handler (SMCReadKey2 conn (c0 :: c1 :: c2 :: c3 :: rest)) s
       = two_phase handler conn (be_uint32 c0 c1 c2 c3) vk s.
Proof.
  destruct (strncpy_key_defined c0 c1 c2 c3 rest) as (vk & Hvk & Hlen).
  exists vk. split; [exact Hvk|]. split; [exact Hlen|].
  unfold SMCReadKey2, two_phase.
  rewrite Hvk, strtoul_b_4.
  cbn [lift bind SMCCall IOConnectCallStructMethod run].
  change (mkCall conn KERNEL_INDEX_SMC _ SMCParam.sizeof SMCParam.zero
                 SMCParam.sizeof)
    with (key_info_request conn (be_uint32 c0 c1 c2 c3)).
  destruct (handler (key_info_request conn (be_uint32 c0 c1 c2 c3)) s)
    as [r1 s1].
  destruct (fst r1 =? kIOReturnSuccess) eqn:E1; cbn [negb run]; [|reflexivity].
  cbn [SMCVal.set_dataSize SMCVal.set_key SMCVal.dataType SMCVal.zero].
  change (repeat NUL 5) with [NUL; NUL; NUL; NUL; NUL].
  rewrite ultoa_b_4. cbn [lift bind run].
  change (mkCall conn KERNEL_INDEX_SMC _ SMCParam.sizeof (snd r1)
                 SMCParam.sizeof)
    with (read_bytes_request conn (be_uint32 c0 c1 c2 c3)
                             (declared_size r1) (snd r1)).
  destruct (handler (read_bytes_request conn (be_uint32 c0 c1 c2 c3)
                                        (declared_size r1) (snd r1)) s1)
    as [r2 s2].
  destruct (fst r2 =? kIOReturnSuccess) eqn:E2; cbn [negb run];
    [|reflexivity].
  unfold read_value, typed_value, memcpy, SMCVal.set_bytes,
    SMCVal.set_dataType, SMCVal.set_key.
  cbn [SMCVal.key SMCVal.dataSize SMCVal.dataType SMCVal.bytes].
  change (skipn 32 (repeat NUL 32)) with (@nil byte).
  now rewrite app_nil_r.
Qed.

(** On a key with fewer than four readable bytes no call is issued: the
    run ends in undefined behaviour. *)
Lemma run_SMCReadKey2_short (conn : io_connect_t) (key : list byte)
    (s : K) :
  (List.length key < 4)%nat ->
  run handler (SMCReadKey2 conn key) s = (None, s, []).
Proof.
  intros Hlen. unfold SMCReadKey2.
  rewrite (strtoul_b_short key 16 Hlen).
  now destruct (strncpy (SMCVal.key SMCVal.zero) key 4).
Qed.

(** [SMCReadKey] is [SMCReadKey2], then the decoder when the status is
    success. *)
Lemma run_SMCReadKey (conn : io_connect_t) (key : list byte) (value : float)
    (s : K) :
  run handler (SMCReadKey conn key value) s
  = let '(a, s', tr) := run handler (SMCReadKey2 conn key) s in
    (option_map
       (fun r => (fst r, if fst r =? kIOReturnSuccess
                         then convertValue (snd r) else value)) a,
     s', tr).
Proof.
  unfold SMCReadKey. rewrite run_bind.
  destruct (run handler (SMCReadKey2 conn key) s) as [[[[st v]|] s'] tr];
    cbn [run option_map fst snd]; [|reflexivity].
  now rewrite app_nil_r.
Qed.

End RunFacts.

(** The value record of a successful read has the shape the decoder
    expects, provided the payload array of the reply has its 32 bytes. *)
Lemma read_value_wf (vk : list byte) (r1 r2 : Reply) :
  List.length vk = 5%nat ->
  List.length (SMCParam.bytes (snd r2)) = 32%nat ->
  SMCVal.wf (read_value vk r1 r2).
Proof.
  intros Hvk Hbytes. unfold SMCVal.wf, read_value, typed_value.
  cbn [SMCVal.set_bytes SMCVal.key SMCVal.dataType SMCVal.bytes].
  repeat split; try assumption; try reflexivity.
  rewrite firstn_all2 by lia. exact Hbytes.
Qed.

Lemma strtoul_b_defined_inv (key : list byte) (base k : Z) :
  strtoul_b key 4 base = Some k ->
  exists (c0 c1 c2 c3 : byte) (rest : list byte),
    key = c0 :: c1 :: c2 :: c3 :: rest /\ k = be_uint32 c0 c1 c2 c3.
Proof.
  intros H.
  destruct key as [|c0 [|c1 [|c2 [|c3 rest]]]];
    try (rewrite strtoul_b_short in H by (simpl; lia); discriminate H).
  rewrite strtoul_b_4 in H. injection H as <-.
  now exists c0, c1, c2, c3, rest.
Qed.

Example fake_smc_reads_25_5 :
  run fake_smc (SMCReadKey 7 (cstr "TC0P") 7.5%float) 0%nat
  = (Some (kIOReturnSuccess, 25.5%float), 2%nat, fake_exchanges).
Proof. vm_compute. reflexivity. Qed.

Example refusing_smc_leaves_value :
  run refusing_smc (SMCReadKey 7 (cstr "TC0P") 7.5%float) 0%nat
  = (Some (some_failure, 7.5%float), 1%nat, refused_exchanges).
Proof. vm_compute. reflexivity. Qed.

(** C4.  A successful run of [SMCReadKey2] made exactly two exchanges, in
    order, on the connection it was given: the metadata request, then the
    data request.  The data request carries the same encoded key, the
    selector "read bytes", and in the declared-size field of its metadata
    sub-record the declared size the metadata phase returned; every other
    field of it is zero. *)
Theorem two_phase_linkage {K : Type} (handler : StructCall -> K -> Reply * K)
    (s s' : K) (conn : io_connect_t) (key : list byte) (v : SMCVal.t)
    (tr : list (StructCall * Reply)) :
  run handler (SMCReadKey2 conn key) s = (Some (kIOReturnSuccess, v), s', tr) ->
  exists (k : Z) (q1 q2 : StructCall) (r1 r2 : Reply) (s1 : K),
    strtoul_b key 4 16 = Some k
    /\ tr = [(q1, r1); (q2, r2)]
    /\ handler q1 s = (r1, s1)
    /\ handler q2 s1 = (r2, s')
    /\ fst r1 = kIOReturnSuccess
    /\ fst r2 = kIOReturnSuccess
    /\ connection q1 = conn
    /\ connection q2 = conn
    /\ selector q1 = KERNEL_INDEX_SMC
    /\ selector q2 = KERNEL_INDEX_SMC
    /\ SMCParam.key (inputStruct q1) = k
    /\ SMCParam.data8 (inputStruct q1) = SMC_CMD_READ_KEYINFO
    /\ SMCParam.key (inputStruct q2) = SMCParam.key (inputStruct q1)
    /\ SMCParam.data8 (inputStruct q2) = SMC_CMD_READ_BYTES
    /\ SMCParam.dataSize (SMCParam.keyInfo (inputStruct q2)) = declared_size r1
    /\ inputStruct q2
       = SMCParam.mk k (SMCParam.mkInfo (declared_size r1) 0 0) 0 0
                     SMC_CMD_READ_BYTES 0 (repeat NUL 32)
    /\ SMCVal.dataSize v = declared_size r1.
Proof.
  intros Hrun.
  destruct key as [|c0 [|c1 [|c2 [|c3 rest]]]];
    try (rewrite run_SMCReadKey2_short in Hrun by (simpl; lia);
         discriminate Hrun).
  destruct (run_SMCReadKey2 handler conn c0 c1 c2 c3 rest s)
    as (vk & _ & _ & Heq).
  rewrite Heq in Hrun. unfold two_phase in Hrun.
  set (k := be_uint32 c0 c1 c2 c3) in *.
  destruct (handler (key_info_request conn k) s) as [r1 s1] eqn:H1.
  destruct (fst r1 =? kIOReturnSuccess) eqn:E1.
  - destruct (handler (read_bytes_request conn k (declared_size r1) (snd r1))
                      s1) as [r2 s2] eqn:H2.
    destruct (fst r2 =? kIOReturnSuccess) eqn:E2.
    + injection Hrun as <- <- <-.
      apply Z.eqb_eq in E1, E2.
      exists k, (key_info_request conn k),
        (read_bytes_request conn k (declared_size r1) (snd r1)), r1, r2, s1.
      rewrite strtoul_b_4. repeat split; assumption.
    + injection Hrun as Hst _ _ _. apply Z.eqb_neq in E2. contradiction.
  - injection Hrun as Hst _ _ _. apply Z.eqb_neq in E1. contradiction.
Qed.

Lemma two_phase_linkage_witness :
  exists (k : Z) (q1 q2 : StructCall) (r1 r2 : Reply) (s1 : nat),
    strtoul_b (cstr "TC0P") 4 16 = Some k
    /\ fake_exchanges = [(q1, r1); (q2, r2)]
    /\ fake_smc q1 0%nat = (r1, s1)
    /\ fake_smc q2 s1 = (r2, 2%nat)
    /\ fst r1 = kIOReturnSuccess
    /\ fst r2 = kIOReturnSuccess
    /\ connection q1 = 7
    /\ connection q2 = 7
    /\ selector q1 = KERNEL_INDEX_SMC
    /\ selector q2 = KERNEL_INDEX_SMC
    /\ SMCParam.key (inputStruct q1) = k
    /\ SMCParam.data8 (inputStruct q1) = SMC_CMD_READ_KEYINFO
    /\ SMCParam.key (inputStruct q2) = SMCParam.key (inputStruct q1)
    /\ SMCParam.data8 (inputStruct q2) = SMC_CMD_READ_BYTES
    /\ SMCParam.dataSize (SMCParam.keyInfo (inputStruct q2)) = declared_size r1
    /\ inputStruct q2
       = SMCParam.mk k (SMCParam.mkInfo (declared_size r1) 0 0) 0 0
                     SMC_CMD_READ_BYTES 0 (repeat NUL 32)
    /\ SMCVal.dataSize fake_value = declared_size r1.
Proof.
  apply (two_phase_linkage fake_smc 0%nat 2%nat 7 (cstr "TC0P") fake_value
                           fake_exchanges).
  vm_compute. reflexivity.
Defined.

(** C5.  On an encodable key: when the metadata phase returns a status
    other than success, [SMCReadKey2] returns that very status and the
    metadata exchange is the only one made; when the metadata phase
    succeeds and the data phase returns a status other than success,
    [SMCReadKey2] returns that very status and the two exchanges are the
    only ones made. *)
Theorem transport_failure_verbatim {K : Type}
    (handler : StructCall -> K -> Reply * K) (s s1 : K)
    (conn : io_connect_t) (key : list byte) (k : Z) (r1 : Reply) :
  strtoul_b key 4 16 = Some k ->
  handler (key_info_request conn k) s = (r1, s1) ->
  (fst r1 <> kIOReturnSuccess ->
   exists v : SMCVal.t,
     run handler (SMCReadKey2 conn key) s
     = (Some (fst r1, v), s1, [(key_info_request conn k, r1)]))
  /\ (fst r1 = kIOReturnSuccess ->
      forall (r2 : Reply) (s2 : K),
        handler (read_bytes_request conn k (declared_size r1) (snd r1)) s1
        = (r2, s2) ->
        fst r2 <> kIOReturnSuccess ->
        exists v : SMCVal.t,
          run handler (SMCReadKey2 conn key) s
          = (Some (fst r2, v), s2,
             [(key_info_request conn k, r1);
              (read_bytes_request conn k (declared_size r1) (snd r1), r2)])).
Proof.
  intros Hk H1.
  destruct (strtoul_b_defined_inv key 16 k Hk)
    as (c0 & c1 & c2 & c3 & rest & -> & ->).
  destruct (run_SMCReadKey2 handler conn c0 c1 c2 c3 rest s)
    as (vk & _ & _ & Heq).
  rewrite Heq. unfold two_phase. rewrite H1. split.
  - intros Hfail. apply Z.eqb_neq in Hfail. rewrite Hfail.
    eexists. reflexivity.
  - intros Hok r2 s2 H2 Hfail. apply Z.eqb_eq in Hok. rewrite Hok, H2.
    apply Z.eqb_neq in Hfail. rewrite Hfail. eexists. reflexivity.
Qed.

Lemma transport_failure_verbatim_witness :
  (exists v : SMCVal.t,
     run refusing_smc (SMCReadKey2 7 (cstr "TC0P")) 0%nat
     = (Some (some_failure, v), 1%nat,
        [(key_info_request 7 1413689424, (some_failure, SMCParam.zero))]))
  /\ (exists v : SMCVal.t,
        run half_refusing_smc (SMCReadKey2 7 (cstr "TC0P")) 0%nat
        = (Some (some_failure, v), 2%nat,
           [(key_info_request 7 1413689424,
             fst (fake_smc (key_info_request 7 1413689424) 0%nat));
            (read_bytes_request 7 1413689424 2
               (snd (fst (fake_smc (key_info_request 7 1413689424) 0%nat))),
             (some_failure,
              snd (fst (fake_smc (key_info_request 7 1413689424) 0%nat))))])).
Proof.
  split.
  - apply (proj1 (transport_failure_verbatim refusing_smc 0%nat 1%nat 7
                    (cstr "TC0P") 1413689424 (some_failure, SMCParam.zero)
                    eq_refl eq_refl)).
    discriminate.
  - apply (proj2 (transport_failure_verbatim half_refusing_smc 0%nat 1%nat 7
                    (cstr "TC0P") 1413689424
                    (fst (fake_smc (key_info_request 7 1413689424) 0%nat))
                    eq_refl eq_refl)
                 eq_refl
                 (some_failure,
                  snd (fst (fake_smc (key_info_request 7 1413689424) 0%nat)))
                 2%nat eq_refl).
    discriminate.
Defined.

(** C6.  [SMCReadKey] is [SMCReadKey2] followed by the decoder.  When it
    returns success, both phases succeeded and the output location holds
    the decoder's value of the typed value and payload that were read; when
    it returns any other status, that is the status of the failed phase and
    the output location holds what it held before.  On a key with four
    readable bytes it always returns. *)
Theorem facade_no_partial_success {K : Type}
    (handler : StructCall -> K -> Reply * K) (s : K)
    (conn : io_connect_t) (key : list byte) (value : float) :
  (forall (st : kern_return_t) (value' : float) (s' : K)
          (tr : list (StructCall * Reply)),
     run handler (SMCReadKey conn key value) s = (Some (st, value'), s', tr) ->
     exists v : SMCVal.t,
       run handler (SMCReadKey2 conn key) s = (Some (st, v), s', tr)
       /\ (st = kIOReturnSuccess ->
           both_phases_succeeded tr
           /\ value' = convertValue v
           /\ exists (vk : list byte) (q1 q2 : StructCall) (r1 r2 : Reply),
                tr = [(q1, r1); (q2, r2)] /\ v = read_value vk r1 r2)
       /\ (st <> kIOReturnSuccess ->
           ~ both_phases_succeeded tr
           /\ value' = value
           /\ exists (tr0 : list (StructCall * Reply)) (q : StructCall)
                     (r : Reply),
                tr = tr0 ++ [(q, r)] /\ fst r = st))
  /\ ((4 <= List.length key)%nat ->
      exists (st : kern_return_t) (value' : float) (s' : K)
             (tr : list (StructCall * Reply)),
        run handler (SMCReadKey conn key value) s
        = (Some (st, value'), s', tr)).
Proof.
  destruct key as [|c0 [|c1 [|c2 [|c3 rest]]]].
  1-4: split; [|simpl; lia];
       intros st value' s' tr Hrun; rewrite run_SMCReadKey in Hrun;
       rewrite run_SMCReadKey2_short in Hrun by (simpl; lia);
       discriminate Hrun.
  destruct (run_SMCReadKey2 handler conn c0 c1 c2 c3 rest s)
    as (vk & _ & _ & Heq).
  rewrite run_SMCReadKey, Heq. unfold two_phase.
  set (k := be_uint32 c0 c1 c2 c3).
  destruct (handler (key_info_request conn k) s) as [r1 s1].
  destruct (fst r1 =? kIOReturnSuccess) eqn:E1.
  - destruct (handler (read_bytes_request conn k (declared_size r1) (snd r1))
                      s1) as [r2 s2].
    destruct (fst r2 =? kIOReturnSuccess) eqn:E2; cbn [option_map fst snd].
    + split; [|eexists _, _, _, _; reflexivity].
      intros st value' s' tr [= <- <- <- <-].
      apply Z.eqb_eq in E1, E2.
      eexists. split; [reflexivity|]. split; [|intros Hne; now elim Hne].
      intros _. split; [|split; [reflexivity|]].
      * eexists _, _, _, _. repeat split; try reflexivity; assumption.
      * now exists vk, (key_info_request conn k),
          (read_bytes_request conn k (declared_size r1) (snd r1)), r1, r2.
    + split; [|eexists _, _, _, _; reflexivity].
      rewrite E2. intros st value' s' tr [= <- <- <- <-].
      apply Z.eqb_neq in E2.
      eexists. split; [reflexivity|]. split; [intros Hst; contradiction|].
      intros _. split; [|split; [reflexivity|]].
      * intros (q1' & r1' & q2' & r2' & Htr & _ & _ & _ & Hr2).
        injection Htr as _ _ _ <-. contradiction.
      * now exists [(key_info_request conn k, r1)],
          (read_bytes_request conn k (declared_size r1) (snd r1)), r2.
  - cbn [option_map fst snd]. split; [|eexists _, _, _, _; reflexivity].
    rewrite E1. intros st value' s' tr [= <- <- <- <-].
    apply Z.eqb_neq in E1.
    eexists. split; [reflexivity|]. split; [intros Hst; contradiction|].
    intros _. split; [|split; [reflexivity|]].
    + intros (q1' & r1' & q2' & r2' & Htr & _). discriminate Htr.
    + now exists [], (key_info_request conn k), r1.
Qed.

Lemma facade_no_partial_success_witness :
  (exists v : SMCVal.t,
     run fake_smc (SMCReadKey2 7 (cstr "TC0P")) 0%nat
     = (Some (kIOReturnSuccess, v), 2%nat, fake_exchanges)
     /\ (kIOReturnSuccess = kIOReturnSuccess ->
         both_phases_succeeded fake_exchanges
         /\ 25.5%float = convertValue v
         /\ exists (vk : list byte) (q1 q2 : StructCall) (r1 r2 : Reply),
              fake_exchanges = [(q1, r1); (q2, r2)]
              /\ v = read_value vk r1 r2)
     /\ (kIOReturnSuccess <> kIOReturnSuccess ->
         ~ both_phases_succeeded fake_exchanges
         /\ 25.5%float = 7.5%float
         /\ exists (tr0 : list (StructCall * Reply)) (q : StructCall)
                   (r : Reply),
              fake_exchanges = tr0 ++ [(q, r)] /\ fst r = kIOReturnSuccess))
  /\ (exists v : SMCVal.t,
        run refusing_smc (SMCReadKey2 7 (cstr "TC0P")) 0%nat
        = (Some (some_failure, v), 1%nat, refused_exchanges)
        /\ (some_failure = kIOReturnSuccess ->
            both_phases_succeeded refused_exchanges
            /\ 7.5%float = convertValue v
            /\ exists (vk : list byte) (q1 q2 : StructCall) (r1 r2 : Reply),
                 refused_exchanges = [(q1, r1); (q2, r2)]
                 /\ v = read_value vk r1 r2)
        /\ (some_failure <> kIOReturnSuccess ->
            ~ both_phases_succeeded refused_exchanges
            /\ 7.5%float = 7.5%float
            /\ exists (tr0 : list (StructCall * Reply)) (q : StructCall)
                      (r : Reply),
                 refused_exchanges = tr0 ++ [(q, r)] /\ fst r = some_failure))
  /\ (exists (st : kern_return_t) (value' : float) (s' : nat)
             (tr : list (StructCall * Reply)),
        run refusing_smc (SMCReadKey 7 (cstr "TC0P") 7.5%float) 0%nat
        = (Some (st, value'), s', tr)).
Proof.
  split; [|split].
  - apply (proj1 (facade_no_partial_success fake_smc 0%nat 7 (cstr "TC0P")
                    7.5%float)
                 kIOReturnSuccess 25.5%float 2%nat fake_exchanges).
    vm_compute. reflexivity.
  - apply (proj1 (facade_no_partial_success refusing_smc 0%nat 7
                    (cstr "TC0P") 7.5%float)
                 some_failure 7.5%float 1%nat refused_exchanges).
    vm_compute. reflexivity.
  - apply (proj2 (facade_no_partial_success refusing_smc 0%nat 7
                    (cstr "TC0P") 7.5%float)).
    simpl. lia.
Defined.

(** * Further properties *)

(** ** The other branches of the decoder *)

(** A check that holds of every pair in [all_bytes] holds of every pair of
    bytes. *)
Lemma forall_byte_pairs (f : byte -> byte -> bool) :
  forallb (fun x => forallb (f x) all_bytes) all_bytes = true ->
  forall b0 b1 : byte, f b0 b1 = true.
Proof.
  intros H b0 b1.
  rewrite forallb_forall in H. specialize (H b0 (all_bytes_complete b0)).
  rewrite forallb_forall in H. exact (H b1 (all_bytes_complete b1)).
Qed.

Lemma be_uint16_range (b0 b1 : byte) : 0 <= be_uint16 b0 b1 < 2 ^ 16.
Proof. byte_ranges. unfold be_uint16. lia. Qed.

(** A value that fits 32 bits, taken through [int] and back to
    [uint32_t], is itself. *)
Lemma to_uint32_to_int (x : Z) :
  0 <= x < 2 ^ 32 -> Int.to_uint32 (Int.to_int x) = x.
Proof. intros Hx. unfold Int.to_uint32, Int.to_int. divmod. Qed.

(** X1.  A payload tagged [fpe2] of declared size 2 decodes to its first two
    bytes, read as an unsigned 16-bit big-endian integer, divided by 4.0;
    the division is exact and the result lies between 0.0 and 16383.75. *)
Theorem fpe2_decode (v : SMCVal.t) (b0 b1 : byte) (rest : list byte) :
  SMCVal.dataType v = cstr "fpe2" ->
  SMCVal.dataSize v = 2 ->
  SMCVal.bytes v = b0 :: b1 :: rest ->
  convertValue v = PrimFloat.div (double_of_int (be_uint16 b0 b1)) 4%float
  /\ PrimFloat.eqb (PrimFloat.mul (convertValue v) 4%float)
                   (double_of_int (be_uint16 b0 b1)) = true
  /\ PrimFloat.leb 0%float (convertValue v) = true
  /\ PrimFloat.leb (convertValue v) 16383.75%float = true.
Proof.
  intros Htag Hsize Hbytes.
  assert (Hv : convertValue v
               = PrimFloat.div (double_of_int (be_uint16 b0 b1)) 4%float).
  { decode. cbn [Z.eqb Pos.eqb andb]. rewrite int_be16.
    pose proof (be_uint16_range b0 b1).
    unfold Int.to_uint16. now rewrite Z.mod_small by lia. }
  rewrite Hv.
  assert (Hall : fpe2_check b0 b1 = true)
    by (apply forall_byte_pairs; vm_compute; reflexivity).
  unfold fpe2_check in Hall. cbv zeta in Hall.
  apply andb_true_iff in Hall as [Hall Hhi].
  apply andb_true_iff in Hall as [Hexact Hlo].
  repeat split; assumption.
Qed.

Lemma fpe2_decode_witness :
  convertValue (sample "fpe2" 2 [x12; x34])
  = PrimFloat.div (double_of_int (be_uint16 x12 x34)) 4%float
  /\ PrimFloat.eqb (PrimFloat.mul (convertValue (sample "fpe2" 2 [x12; x34]))
                                  4%float)
                   (double_of_int (be_uint16 x12 x34)) = true
  /\ PrimFloat.leb 0%float (convertValue (sample "fpe2" 2 [x12; x34])) = true
  /\ PrimFloat.leb (convertValue (sample "fpe2" 2 [x12; x34])) 16383.75%float
     = true.
Proof.
  apply (fpe2_decode (sample "fpe2" 2 [x12; x34]) x12 x34 (repeat NUL 30));
    reflexivity.
Defined.

(** X2.  A payload tagged [ui16] of declared size 2 decodes to its first two
    bytes read as an unsigned 16-bit big-endian integer: the shift by 8
    stays below the sign bit of [int], so, unlike [ui32], the result is
    between 0.0 and 65535.0 for every byte pattern. *)
Theorem ui16_decode (v : SMCVal.t) (b0 b1 : byte) (rest : list byte) :
  SMCVal.dataType v = cstr "ui16" ->
  SMCVal.dataSize v = 2 ->
  SMCVal.bytes v = b0 :: b1 :: rest ->
  convertValue v = double_of_int (be_uint16 b0 b1)
  /\ 0 <= be_uint16 b0 b1 <= 65535
  /\ PrimFloat.leb 0%float (convertValue v) = true
  /\ PrimFloat.leb (convertValue v) 65535%float = true.
Proof.
  intros Htag Hsize Hbytes.
  assert (Hv : convertValue v = double_of_int (be_uint16 b0 b1)).
  { decode. cbn [Z.eqb Pos.eqb andb]. now rewrite int_be16. }
  rewrite Hv. pose proof (be_uint16_range b0 b1).
  assert (Hall : ui16_check b0 b1 = true)
    by (apply forall_byte_pairs; vm_compute; reflexivity).
  apply andb_true_iff in Hall as [Hlo Hhi].
  repeat split; try assumption; lia.
Qed.

Lemma ui16_decode_witness :
  convertValue (sample "ui16" 2 [xff; xfe])
  = double_of_int (be_uint16 xff xfe)
  /\ 0 <= be_uint16 xff xfe <= 65535
  /\ PrimFloat.leb 0%float (convertValue (sample "ui16" 2 [xff; xfe])) = true
  /\ PrimFloat.leb (convertValue (sample "ui16" 2 [xff; xfe])) 65535%float
     = true.
Proof.
  apply (ui16_decode (sample "ui16" 2 [xff; xfe]) xff xfe (repeat NUL 30));
    reflexivity.
Defined.

(** The bits the [flt ] branch reinterprets: the [int] expression stored
    in a [uint32_t]. *)
Lemma flt_bits (b0 b1 b2 b3 : byte) :
  Int.to_uint32
    (Z.lor (Z.lor (Z.lor (Int.shl (Z_of_byte b0) 24)
                         (Int.shl (Z_of_byte b1) 16))
                  (Int.shl (Z_of_byte b2) 8))
           (Z_of_byte b3))
  = be_uint32 b0 b1 b2 b3.
Proof.
  now rewrite int_be32, to_uint32_to_int by apply be_uint32_range.
Qed.

(** X3.  A payload tagged [flt ] of declared size 4 decodes to the [float] whose
    bit pattern is the unsigned big-endian value of its first four bytes:
    the assignment to a [uint32_t] undoes the wrap of the [int] expression,
    so the top bit of the first byte is the sign bit of the float and
    nothing else. *)
Theorem flt_decode (v : SMCVal.t) (b0 b1 b2 b3 : byte) (rest : list byte) :
  SMCVal.dataType v = cstr "flt " ->
  SMCVal.dataSize v = 4 ->
  SMCVal.bytes v = b0 :: b1 :: b2 :: b3 :: rest ->
  convertValue v = double_of_float_bits (be_uint32 b0 b1 b2 b3).
Proof.
  intros Htag Hsize Hbytes. decode. cbn [Z.eqb Pos.eqb andb].
  now rewrite flt_bits.
Qed.

Lemma flt_decode_witness :
  convertValue (sample "flt " 4 [xbf; x80; x00; x00])
  = double_of_float_bits (be_uint32 xbf x80 x00 x00).
Proof.
  apply (flt_decode (sample "flt " 4 [xbf; x80; x00; x00]) xbf x80 x00 x00
                    (repeat NUL 28)); reflexivity.
Defined.

(** Setting the top bit of a float's bit pattern negates the float. *)
Lemma float_bits_sign (bits : Z) :
  0 <= bits < 2 ^ 31 ->
  double_of_float_bits (bits + 2 ^ 31)
  = PrimFloat.opp (double_of_float_bits bits).
Proof.
  intros Hb. unfold double_of_float_bits.
  assert (Hs1 : Z.testbit (bits + 2 ^ 31) 31 = true).
  { rewrite Z.testbit_true by lia. divmod. }
  assert (Hs0 : Z.testbit bits 31 = false).
  { rewrite Z.testbit_false by lia. divmod. }
  assert (He : Z.land (Z.shiftr (bits + 2 ^ 31) 23) 255
               = Z.land (Z.shiftr bits 23) 255).
  { change 255 with (Z.ones 8).
    rewrite !Z.land_ones, !Z.shiftr_div_pow2 by lia.
    change (2 ^ 23) with 8388608. divmod. }
  assert (Hm : Z.land (bits + 2 ^ 31) (2 ^ 23 - 1) = Z.land bits (2 ^ 23 - 1)).
  { change (2 ^ 23 - 1) with (Z.ones 23). rewrite !Z.land_ones by lia.
    change (2 ^ 23) with 8388608. divmod. }
  rewrite Hs1, Hs0, He, Hm.
  destruct (Z.eqb (Z.land (Z.shiftr bits 23) 255) 255).
  - now destruct (Z.eqb (Z.land bits (2 ^ 23 - 1)) 0).
  - destruct (Z.eqb (Z.land (Z.shiftr bits 23) 255) 0).
    + now destruct (Z.land bits (2 ^ 23 - 1)).
    + now destruct (Z.land bits (2 ^ 23 - 1) + 2 ^ 23)%Z.
Qed.

(** X4.  In the [flt ] branch the top bit of the first payload byte is the sign
    and nothing else: two payloads that differ in that bit only decode to
    opposite values. *)
Theorem flt_sign_bit (v w : SMCVal.t) (b0 b0' b1 b2 b3 : byte)
    (rest rest' : list byte) :
  SMCVal.dataType v = cstr "flt " -> SMCVal.dataSize v = 4 ->
  SMCVal.dataType w = cstr "flt " -> SMCVal.dataSize w = 4 ->
  SMCVal.bytes v = b0 :: b1 :: b2 :: b3 :: rest ->
  SMCVal.bytes w = b0' :: b1 :: b2 :: b3 :: rest' ->
  Z_of_byte b0' = Z_of_byte b0 + 128 ->
  convertValue w = PrimFloat.opp (convertValue v).
Proof.
  intros Tv Sv Tw Sw Bv Bw Hb.
  assert (Hv : convertValue v = double_of_float_bits (be_uint32 b0 b1 b2 b3)).
  { clear Tw Sw Bw w. decode. cbn [Z.eqb Pos.eqb andb]. now rewrite flt_bits. }
  assert (Hw : convertValue w
               = double_of_float_bits (be_uint32 b0' b1 b2 b3)).
  { clear Hv Tv Sv Bv v. decode. cbn [Z.eqb Pos.eqb andb].
    now rewrite flt_bits. }
  rewrite Hv, Hw.
  replace (be_uint32 b0' b1 b2 b3) with (be_uint32 b0 b1 b2 b3 + 2 ^ 31)
    by (unfold be_uint32; rewrite Hb; lia).
  apply float_bits_sign. byte_ranges. unfold be_uint32. lia.
Qed.

Lemma flt_sign_bit_witness :
  convertValue (sample "flt " 4 [xc1; xcc; x00; x00])
  = PrimFloat.opp (convertValue (sample "flt " 4 [x41; xcc; x00; x00])).
Proof.
  apply (flt_sign_bit (sample "flt " 4 [x41; xcc; x00; x00])
                      (sample "flt " 4 [xc1; xcc; x00; x00])
                      x41 xc1 xcc x00 x00 (repeat NUL 28) (repeat NUL 28));
    reflexivity.
Defined.

(** X5.  The decoder reads the declared size, the type tag and the first four
    payload bytes, and nothing else: the key text and the payload from
    index 4 on never change the decoded value. *)
Theorem decoder_reads_four_bytes (v w : SMCVal.t) :
  SMCVal.dataSize v = SMCVal.dataSize w ->
  SMCVal.dataType v = SMCVal.dataType w ->
  firstn 4 (SMCVal.bytes v) = firstn 4 (SMCVal.bytes w) ->
  convertValue v = convertValue w.
Proof.
  intros Hsize Htype Hbytes.
  assert (Hb : forall i : nat, (i < 4)%nat ->
                 SMCVal.byte_at v i = SMCVal.byte_at w i).
  { intros i Hi. unfold SMCVal.byte_at. f_equal.
    pose proof (nth_firstn 4 (SMCVal.bytes v) i NUL) as Hv.
    pose proof (nth_firstn 4 (SMCVal.bytes w) i NUL) as Hw.
    apply Nat.ltb_lt in Hi. rewrite Hi in Hv, Hw.
    now rewrite <- Hv, <- Hw, Hbytes. }
  unfold convertValue. cbv zeta.
  rewrite Hsize, Htype, !(Hb 0%nat), !(Hb 1%nat), !(Hb 2%nat), !(Hb 3%nat)
    by lia.
  reflexivity.
Qed.

Lemma decoder_reads_four_bytes_witness :
  convertValue (SMCVal.mk (cstr "TC0P") 2 (cstr "sp78")
                          ([x19; x80; x00; x00] ++ repeat xff 28))
  = convertValue (sample "sp78" 2 [x19; x80]).
Proof.
  apply (decoder_reads_four_bytes
           (SMCVal.mk (cstr "TC0P") 2 (cstr "sp78")
                      ([x19; x80; x00; x00] ++ repeat xff 28))
           (sample "sp78" 2 [x19; x80])); reflexivity.
Defined.

(** ** The codec at other sizes, and back *)

Lemma for_loop_ext {T : Type} (body body' : Z -> T -> option T) (n : nat)
    (i : Z) (s : T) :
  (forall j t, body j t = body' j t) ->
  for_loop n i body s = for_loop n i body' s.
Proof.
  intros Hext. revert i s. induction n as [|n IH]; intros i s; cbn [for_loop].
  - reflexivity.
  - rewrite Hext. destruct (body' i s) as [t|]; cbn [obind]; [apply IH|].
    reflexivity.
Qed.

(** X6.  The [base] argument of [strtoul_b] changes nothing: for every buffer
    and size the result is the same whatever [base] is. *)
Theorem strtoul_b_base_irrelevant (str : list byte) (size base base' : Z) :
  strtoul_b str size base = strtoul_b str size base'.
Proof.
  unfold strtoul_b. apply for_loop_ext. intros j t.
  unfold strtoul_b_body.
  now destruct (base =? 16), (base' =? 16).
Qed.

(** An iteration of [strtoul_b], at any size, whose read is inside the
    object and whose shift count is inside the width of [int]. *)
Lemma strtoul_b_body_at (str : list byte) (size base i total : Z) (c : byte) :
  load str i = Some c ->
  0 <= (size - 1 - i) * 8 < 32 ->
  strtoul_b_body str size base i total
  = Some (Int.to_uint32
            (total
             + Int.to_uint32 (Int.shl (Z_of_byte c) ((size - 1 - i) * 8)))).
Proof.
  intros Hload Hi. unfold strtoul_b_body, Int.shl_checked.
  rewrite Hload. cbn [obind].
  replace ((0 <=? (size - 1 - i) * 8) && ((size - 1 - i) * 8 <? 32)) with true
    by (symmetry; apply andb_true_iff; split;
        [apply Z.leb_le | apply Z.ltb_lt]; lia).
  now destruct (base =? 16).
Qed.

(** Evaluates the closed shift counts of the goal. *)
Ltac eval_shift_counts :=
  repeat match goal with
  | |- context [Int.shl _ ?e] =>
      let n := eval vm_compute in e in progress change e with n
  end.

(** Runs the iterations of [strtoul_b] that read inside the buffer. *)
Ltac run_strtoul_b :=
  unfold strtoul_b;
  repeat match goal with
  | |- context [Z.to_nat ?k] =>
      let n := eval vm_compute in (Z.to_nat k) in
      progress change (Z.to_nat k) with n
  end;
  cbn [for_loop];
  repeat (erewrite strtoul_b_body_at by (reflexivity || lia); cbn [obind]);
  eval_shift_counts.

(** X7.  [strtoul_b] at a size from 0 to 4: with that many readable bytes it
    returns their big-endian value, right-aligned in the 32-bit result (two
    characters encoded with size 2 give c0 * 256 + c1, not the encoding of
    the key padded to four); with fewer it reads outside the object. *)
Theorem strtoul_b_sizes (str : list byte) (size base : Z) :
  0 <= size <= 4 ->
  ((Z.to_nat size <= List.length str)%nat ->
   strtoul_b str size base = Some (be_value (firstn (Z.to_nat size) str))
   /\ 0 <= be_value (firstn (Z.to_nat size) str) < 2 ^ (8 * size))
  /\ ((List.length str < Z.to_nat size)%nat ->
      strtoul_b str size base = None).
Proof.
  intros Hsize.
  assert (Hcases : size = 0 \/ size = 1 \/ size = 2 \/ size = 3 \/ size = 4)
    by lia.
  destruct Hcases as [-> | [-> | [-> | [-> | ->]]]].
  - split; [intros _; split; [reflexivity | cbn; lia]|].
    cbn. intros H. lia.
  - change (Z.to_nat 1) with 1%nat.
    destruct str as [|c0 rest]; (split; [intros Hlen | intros Hshort]);
      try (simpl in *; lia); try reflexivity.
    byte_ranges. run_strtoul_b.
    rewrite !to_uint32_shl_byte by tauto.
    cbn [firstn fold_left be_value]. unfold be_value, Int.to_uint32.
    cbn [fold_left]. split; [f_equal|]; divmod.
  - change (Z.to_nat 2) with 2%nat.
    destruct str as [|c0 [|c1 rest]];
      (split; [intros Hlen | intros Hshort]);
      try (simpl in *; lia); try (run_strtoul_b; reflexivity).
    byte_ranges. run_strtoul_b.
    rewrite !to_uint32_shl_byte by tauto.
    unfold be_value, Int.to_uint32. cbn [firstn fold_left].
    split; [f_equal|]; divmod.
  - change (Z.to_nat 3) with 3%nat.
    destruct str as [|c0 [|c1 [|c2 rest]]];
      (split; [intros Hlen | intros Hshort]);
      try (simpl in *; lia); try (run_strtoul_b; reflexivity).
    byte_ranges. run_strtoul_b.
    rewrite !to_uint32_shl_byte by tauto.
    unfold be_value, Int.to_uint32. cbn [firstn fold_left].
    split; [f_equal|]; divmod.
  - change (Z.to_nat 4) with 4%nat.
    destruct str as [|c0 [|c1 [|c2 [|c3 rest]]]];
      (split; [intros Hlen | intros Hshort]);
      try (simpl in *; lia);
      try (apply strtoul_b_short; simpl; lia).
    byte_ranges. rewrite strtoul_b_4.
    unfold be_value, be_uint32. cbn [firstn fold_left].
    split; [f_equal|]; divmod.
Qed.

Lemma strtoul_b_sizes_witness :
  (strtoul_b (cstr "AB") 2 16
   = Some (be_value (firstn (Z.to_nat 2) (cstr "AB")))
   /\ 0 <= be_value (firstn (Z.to_nat 2) (cstr "AB")) < 2 ^ (8 * 2))
  /\ strtoul_b (cstr "AB") 4 16 = None.
Proof.
  split.
  - apply (proj1 (strtoul_b_sizes (cstr "AB") 2 16 ltac:(lia))).
    simpl. lia.
  - apply (proj2 (strtoul_b_sizes (cstr "AB") 4 16 ltac:(lia))).
    simpl. lia.
Defined.

(** X8.  Past size 4 neither direction of the codec has a defined result: the
    first iteration already shifts by 32 bits or more, the width of the
    operand, or reads outside an empty buffer. *)
Theorem codec_oversize (str : list byte) (val size base : Z) :
  4 < size ->
  strtoul_b str size base = None /\ ultoa_b val str size = None.
Proof.
  intros Hsize.
  assert (Hn : exists n, Z.to_nat size = S n)
    by (exists (Nat.pred (Z.to_nat size)); lia).
  destruct Hn as [n Hn].
  assert (Hcount : (0 <=? (size - 1 - 0) * 8) && ((size - 1 - 0) * 8 <? 32)
                   = false).
  { apply andb_false_iff. right. apply Z.ltb_ge. lia. }
  split.
  - unfold strtoul_b. rewrite Hn. cbn [for_loop].
    unfold strtoul_b_body, Int.shl_checked. rewrite Hcount.
    destruct (load str 0); [|reflexivity].
    now destruct (base =? 16).
  - unfold ultoa_b. rewrite Hn. cbn [for_loop].
    unfold ultoa_b_body, Int.shru_checked. now rewrite Hcount.
Qed.

Lemma codec_oversize_witness :
  strtoul_b (cstr "TC0PX") 5 16 = None
  /\ ultoa_b 1413689424 (cstr "TC0PX") 5 = None.
Proof. apply (codec_oversize (cstr "TC0PX") 1413689424 5 16). lia. Defined.

Lemma Z_of_byte_of_Z (z : Z) : Z_of_byte (byte_of_Z z) = z mod 256.
Proof.
  unfold Z_of_byte, byte_of_Z.
  pose proof (Z.mod_pos_bound z 256 ltac:(lia)) as Hm.
  destruct (Byte.of_N (Z.to_N (z mod 256))) as [b|] eqn:E.
  - apply Byte.to_of_N in E. rewrite E. lia.
  - apply Byte.of_N_None_iff in E. lia.
Qed.

(** The big-endian value of the four bytes [ultoa_b] writes is the value
    written, for every 32-bit value. *)
Lemma be_uint32_type_tag (v : Z) :
  0 <= v < 2 ^ 32 ->
  be_uint32 (byte_of_Z (Z.land (Z.shiftr v 24) 255))
            (byte_of_Z (Z.land (Z.shiftr v 16) 255))
            (byte_of_Z (Z.land (Z.shiftr v 8) 255))
            (byte_of_Z (Z.land (Z.shiftr v 0) 255))
  = v.
Proof.
  intros Hv. unfold be_uint32. rewrite !Z_of_byte_of_Z.
  change 255 with (Z.ones 8).
  rewrite !Z.land_ones, !Z.shiftr_div_pow2 by lia.
  divmod.
Qed.

(** X9.  [ultoa_b] with size 4 writes inside a buffer of at least four bytes and
    only there: the four bytes written are the text of the value, the rest
    of the buffer and its length are kept; on a shorter buffer a write
    falls outside it. *)
Theorem ultoa_b_bounds (val : Z) (buf : list byte) :
  ((4 <= List.length buf)%nat ->
   exists buf' : list byte,
     ultoa_b val buf 4 = Some buf'
     /\ firstn 4 buf' = type_tag val
     /\ skipn 4 buf' = skipn 4 buf
     /\ List.length buf' = List.length buf)
  /\ ((List.length buf < 4)%nat -> ultoa_b val buf 4 = None).
Proof.
  destruct buf as [|a0 [|a1 [|a2 [|a3 rest]]]];
    (split; [intros Hlen | intros Hshort]);
    try (simpl in *; lia); try reflexivity.
  exists (type_tag val ++ rest). rewrite ultoa_b_4.
  repeat split; reflexivity.
Qed.

Lemma ultoa_b_bounds_witness :
  (exists buf' : list byte,
     ultoa_b 1936734008 (repeat NUL 5) 4 = Some buf'
     /\ firstn 4 buf' = type_tag 1936734008
     /\ skipn 4 buf' = skipn 4 (repeat NUL 5)
     /\ List.length buf' = List.length (repeat NUL 5))
  /\ ultoa_b 1936734008 (repeat NUL 3) 4 = None.
Proof.
  split.
  - apply (proj1 (ultoa_b_bounds 1936734008 (repeat NUL 5))). simpl. lia.
  - apply (proj2 (ultoa_b_bounds 1936734008 (repeat NUL 3))). simpl. lia.
Defined.

(** X10.  Decoding then encoding: for every 32-bit value, the text [ultoa_b]
    writes encodes back to the value with [strtoul_b].  With the round trip
    in the other direction, the codec is a bijection between 32-bit values
    and texts of four bytes. *)
Theorem codec_roundtrip_from_value (v : Z) (buf : list byte) (base : Z) :
  0 <= v < 2 ^ 32 ->
  (4 <= List.length buf)%nat ->
  exists buf' : list byte,
    ultoa_b v buf 4 = Some buf' /\ strtoul_b buf' 4 base = Some v.
Proof.
  intros Hv Hbuf.
  destruct buf as [|a0 [|a1 [|a2 [|a3 rest]]]]; try (simpl in Hbuf; lia).
  exists (type_tag v ++ rest). split; [apply ultoa_b_4|].
  unfold type_tag. cbn [app]. rewrite strtoul_b_4.
  now rewrite be_uint32_type_tag.
Qed.

Lemma codec_roundtrip_from_value_witness :
  exists buf' : list byte,
    ultoa_b 4294967295 (repeat NUL 5) 4 = Some buf'
    /\ strtoul_b buf' 4 16 = Some 4294967295.
Proof.
  apply (codec_roundtrip_from_value 4294967295 (repeat NUL 5) 16).
  - lia.
  - simpl. lia.
Defined.

(** ** The copy of the key text *)

(** X11.  For every terminated key text, of any length, the copy [SMCReadKey2]
    makes into the value record is defined, reads no further than the
    terminator, and leaves the first four characters of the key followed
    by terminators: the key field is a C string of at most four
    characters. *)
Theorem strncpy_key_text (k : list byte) :
  forallb (fun c => negb (Byte.eqb c NUL)) k = true ->
  strncpy (SMCVal.key SMCVal.zero) (k ++ [NUL]) 4
  = Some (firstn 4 k ++ repeat NUL (5 - Nat.min 4 (List.length k))).
Proof.
  intros Hk. unfold strncpy.
  destruct k as [|c0 [|c1 [|c2 [|c3 rest]]]]; cbn [forallb] in Hk;
    repeat match type of Hk with
    | (_ && _) = true => apply andb_true_iff in Hk as [?Hc Hk]
    end;
    repeat match goal with
    | H : negb (Byte.eqb _ NUL) = true |- _ => apply negb_true_iff in H
    end;
    cbn [app strncpy_chars];
    repeat match goal with
    | H : Byte.eqb ?c NUL = false |- context [Byte.eqb ?c NUL] => rewrite H
    end;
    reflexivity.
Qed.

Lemma strncpy_key_text_witness :
  strncpy (SMCVal.key SMCVal.zero) (list_byte_of_string "AB" ++ [NUL]) 4
  = Some (firstn 4 (list_byte_of_string "AB")
          ++ repeat NUL
               (5 - Nat.min 4 (List.length (list_byte_of_string "AB")))).
Proof.
  apply (strncpy_key_text (list_byte_of_string "AB")). reflexivity.
Defined.

(** ** The read as a whole *)

(** What the [sp78] branch returns; the form used below. *)
Lemma sp78_value (v : SMCVal.t) (b0 b1 : byte) (rest : list byte) :
  SMCVal.dataType v = cstr "sp78" ->
  SMCVal.dataSize v = 2 ->
  SMCVal.bytes v = b0 :: b1 :: rest ->
  convertValue v = PrimFloat.div (double_of_int (be_int16 b0 b1)) 256%float.
Proof.
  intros Htag Hsize Hbytes. decode.
  cbn [Z.eqb Pos.eqb andb]. now rewrite int_be16, to_int16_be.
Qed.

(** X12.  Only the first four bytes of the key are read: a longer key, with or
    without a terminator, is read as its first four bytes. *)
Theorem SMCReadKey_truncates_key {K : Type}
    (handler : StructCall -> K -> Reply * K) (s : K) (conn : io_connect_t)
    (key key' : list byte) (value : float) :
  (4 <= List.length key)%nat ->
  (4 <= List.length key')%nat ->
  firstn 4 key = firstn 4 key' ->
  run handler (SMCReadKey conn key value) s
  = run handler (SMCReadKey conn key' value) s.
Proof.
  intros Hlen Hlen' Hpre.
  destruct key as [|c0 [|c1 [|c2 [|c3 rest]]]]; try (simpl in Hlen; lia).
  destruct key' as [|d0 [|d1 [|d2 [|d3 rest']]]]; try (simpl in Hlen'; lia).
  injection Hpre as <- <- <- <-.
  rewrite !run_SMCReadKey.
  destruct (run_SMCReadKey2 handler conn c0 c1 c2 c3 rest s)
    as (vk & Hvk & _ & ->).
  destruct (run_SMCReadKey2 handler conn c0 c1 c2 c3 rest' s)
    as (vk' & Hvk' & _ & ->).
  assert (Hsame : strncpy (SMCVal.key SMCVal.zero)
                          (c0 :: c1 :: c2 :: c3 :: rest) 4
                  = strncpy (SMCVal.key SMCVal.zero)
                            (c0 :: c1 :: c2 :: c3 :: rest') 4).
  { unfold strncpy. cbn [strncpy_chars].
    destruct (Byte.eqb c0 NUL); [reflexivity|].
    destruct (Byte.eqb c1 NUL); [reflexivity|].
    destruct (Byte.eqb c2 NUL); [reflexivity|].
    now destruct (Byte.eqb c3 NUL). }
  rewrite Hvk, Hvk' in Hsame. now injection Hsame as ->.
Qed.

Lemma SMCReadKey_truncates_key_witness :
  run fake_smc (SMCReadKey 7 (cstr "TC0Pxyz") 7.5%float) 0%nat
  = run fake_smc (SMCReadKey 7 (list_byte_of_string "TC0P") 7.5%float) 0%nat.
Proof.
  apply (SMCReadKey_truncates_key fake_smc 0%nat 7 (cstr "TC0Pxyz")
                                  (list_byte_of_string "TC0P") 7.5%float).
  - simpl. lia.
  - simpl. lia.
  - reflexivity.
Defined.

(** X13.  For every key, kernel and prior value, a read makes at most two calls;
    each is on the connection it was given, with the selector of the SMC
    and both sizes the size of the record, and sends no payload; their
    commands are "read key info" then "read bytes", never another order. *)
Theorem SMCReadKey_calls_bounded {K : Type}
    (handler : StructCall -> K -> Reply * K) (s : K) (conn : io_connect_t)
    (key : list byte) (value : float) :
  let tr := snd (run handler (SMCReadKey conn key value) s) in
  (List.length tr <= 2)%nat
  /\ Forall (fun e => well_formed_request conn (fst e)) tr
  /\ (map (fun e => SMCParam.data8 (inputStruct (fst e))) tr = []
      \/ map (fun e => SMCParam.data8 (inputStruct (fst e))) tr
         = [SMC_CMD_READ_KEYINFO]
      \/ map (fun e => SMCParam.data8 (inputStruct (fst e))) tr
         = [SMC_CMD_READ_KEYINFO; SMC_CMD_READ_BYTES]).
Proof.
  cbv zeta. rewrite run_SMCReadKey.
  assert (Hshort : (List.length key < 4)%nat \/
                   exists c0 c1 c2 c3 rest, key = c0 :: c1 :: c2 :: c3 :: rest).
  { destruct key as [|c0 [|c1 [|c2 [|c3 rest]]]];
      try (left; simpl; lia). right. now exists c0, c1, c2, c3, rest. }
  destruct Hshort as [Hshort | (c0 & c1 & c2 & c3 & rest & ->)].
  - rewrite run_SMCReadKey2_short by exact Hshort. cbn.
    split; [lia|]. split; [constructor|]. now left.
  - destruct (run_SMCReadKey2 handler conn c0 c1 c2 c3 rest s)
      as (vk & _ & _ & ->).
    unfold two_phase.
    destruct (handler _ s) as [r1 s1].
    destruct (fst r1 =? kIOReturnSuccess).
    + destruct (handler _ s1) as [r2 s2].
      destruct (fst r2 =? kIOReturnSuccess); cbn [snd map List.length fst];
        (split; [lia|]); (split; [|now right; right]);
        repeat constructor.
    + cbn [snd map List.length fst]. split; [lia|].
      split; [|now right; left]. repeat constructor.
Qed.

(** X14.  Whatever the outcome, the value record [SMCReadKey2] leaves is one the
    decoder can take: its key and type tag are five bytes, the type tag ends
    in a terminator, and, with a kernel whose replies carry their 32 payload
    bytes, its payload is 32 bytes. *)
Theorem SMCReadKey2_record_wf {K : Type}
    (handler : StructCall -> K -> Reply * K) (s s' : K) (conn : io_connect_t)
    (key : list byte) (st : kern_return_t) (v : SMCVal.t)
    (tr : list (StructCall * Reply)) :
  (forall c t,
     List.length (SMCParam.bytes (snd (fst (handler c t)))) = 32%nat) ->
  run handler (SMCReadKey2 conn key) s = (Some (st, v), s', tr) ->
  SMCVal.wf v.
Proof.
  intros Hreplies Hrun.
  destruct key as [|c0 [|c1 [|c2 [|c3 rest]]]];
    try (rewrite run_SMCReadKey2_short in Hrun by (simpl; lia);
         discriminate Hrun).
  destruct (run_SMCReadKey2 handler conn c0 c1 c2 c3 rest s)
    as (vk & _ & Hvk & Heq).
  rewrite Heq in Hrun. unfold two_phase in Hrun.
  destruct (handler (key_info_request conn (be_uint32 c0 c1 c2 c3)) s)
    as [r1 s1].
  destruct (fst r1 =? kIOReturnSuccess).
  - pose proof (Hreplies
                  (read_bytes_request conn (be_uint32 c0 c1 c2 c3)
                                      (declared_size r1) (snd r1)) s1) as H2.
    destruct (handler (read_bytes_request conn (be_uint32 c0 c1 c2 c3)
                                          (declared_size r1) (snd r1)) s1)
      as [r2 s2].
    destruct (fst r2 =? kIOReturnSuccess); injection Hrun as _ <- _ _.
    + now apply read_value_wf.
    + repeat split; try assumption; reflexivity.
  - injection Hrun as _ <- _ _. repeat split; try assumption; reflexivity.
Qed.

Lemma fake_smc_payload (c : StructCall) (t : nat) :
  List.length (SMCParam.bytes (snd (fst (fake_smc c t)))) = 32%nat.
Proof.
  unfold fake_smc.
  now destruct (SMCParam.data8 (inputStruct c) =? SMC_CMD_READ_KEYINFO).
Qed.

Lemma SMCReadKey2_record_wf_witness : SMCVal.wf fake_value.
Proof.
  apply (SMCReadKey2_record_wf fake_smc 0%nat 2%nat 7 (cstr "TC0P")
                               kIOReturnSuccess fake_value fake_exchanges
                               fake_smc_payload).
  vm_compute. reflexivity.
Defined.

(** X15.  A failed read copies nothing of the reply's payload: the payload of
    the value record is all zero after a failure of either phase, and after
    a failure of the metadata phase the declared size is 0 and the type tag
    empty as well. *)
Theorem failed_read_leaves_zero_payload {K : Type}
    (handler : StructCall -> K -> Reply * K) (s s' : K) (conn : io_connect_t)
    (key : list byte) (st : kern_return_t) (v : SMCVal.t)
    (tr : list (StructCall * Reply)) :
  run handler (SMCReadKey2 conn key) s = (Some (st, v), s', tr) ->
  st <> kIOReturnSuccess ->
  SMCVal.bytes v = repeat NUL 32
  /\ (List.length tr = 1%nat ->
      SMCVal.dataSize v = 0 /\ SMCVal.dataType v = repeat NUL 5).
Proof.
  intros Hrun Hst.
  destruct key as [|c0 [|c1 [|c2 [|c3 rest]]]];
    try (rewrite run_SMCReadKey2_short in Hrun by (simpl; lia);
         discriminate Hrun).
  destruct (run_SMCReadKey2 handler conn c0 c1 c2 c3 rest s)
    as (vk & _ & _ & Heq).
  rewrite Heq in Hrun. unfold two_phase in Hrun.
  destruct (handler _ s) as [r1 s1].
  destruct (fst r1 =? kIOReturnSuccess).
  - destruct (handler _ s1) as [r2 s2].
    destruct (fst r2 =? kIOReturnSuccess); injection Hrun as <- <- _ <-.
    + contradiction.
    + split; [reflexivity|]. intros Hlen. discriminate Hlen.
  - injection Hrun as _ <- _ _. now split.
Qed.

Lemma failed_read_leaves_zero_payload_witness :
  SMCVal.bytes (SMCVal.set_key SMCVal.zero (cstr "TC0P")) = repeat NUL 32
  /\ (List.length refused_exchanges = 1%nat ->
      SMCVal.dataSize (SMCVal.set_key SMCVal.zero (cstr "TC0P")) = 0
      /\ SMCVal.dataType (SMCVal.set_key SMCVal.zero (cstr "TC0P"))
         = repeat NUL 5).
Proof.
  apply (failed_read_leaves_zero_payload refusing_smc 0%nat 1%nat 7
           (cstr "TC0P") some_failure
           (SMCVal.set_key SMCVal.zero (cstr "TC0P")) refused_exchanges).
  - vm_compute. reflexivity.
  - discriminate.
Defined.

(** X16.  Transport, codec and decoder together.  When the kernel answers the
    metadata phase with declared size 2 and the type whose 32-bit code is
    the encoding of the text sp78, and the data phase with a payload that
    starts with [b0], [b1], the read succeeds and the value written is the
    signed 16-bit big-endian reading of the two bytes divided by 256.0: the
    type code goes through [ultoa_b] into the text the decoder compares. *)
Theorem SMCReadKey_sp78 {K : Type} (handler : StructCall -> K -> Reply * K)
    (s s1 s2 : K) (conn : io_connect_t) (key : list byte) (k : Z)
    (value : float) (out1 out2 : SMCParam.t) (b0 b1 : byte)
    (rest : list byte) :
  strtoul_b key 4 16 = Some k ->
  handler (key_info_request conn k) s = ((kIOReturnSuccess, out1), s1) ->
  SMCParam.dataSize (SMCParam.keyInfo out1) = 2 ->
  Some (SMCParam.dataType (SMCParam.keyInfo out1))
  = strtoul_b (cstr "sp78") 4 16 ->
  handler (read_bytes_request conn k 2 out1) s1
  = ((kIOReturnSuccess, out2), s2) ->
  SMCParam.bytes out2 = b0 :: b1 :: rest ->
  run handler (SMCReadKey conn key value) s
  = (Some (kIOReturnSuccess,
           PrimFloat.div (double_of_int (be_int16 b0 b1)) 256%float),
     s2,
     [(key_info_request conn k, (kIOReturnSuccess, out1));
      (read_bytes_request conn k 2 out1, (kIOReturnSuccess, out2))]).
Proof.
  intros Hk H1 Hsize Htype H2 Hbytes.
  destruct (strtoul_b_defined_inv key 16 k Hk)
    as (c0 & c1 & c2 & c3 & rest0 & -> & ->).
  rewrite run_SMCReadKey.
  destruct (run_SMCReadKey2 handler conn c0 c1 c2 c3 rest0 s)
    as (vk & _ & _ & ->).
  unfold two_phase. rewrite H1. cbn [fst snd].
  change (kIOReturnSuccess =? kIOReturnSuccess) with true. cbv iota.
  unfold declared_size. cbn [snd]. rewrite Hsize, H2. cbn [fst snd].
  change (kIOReturnSuccess =? kIOReturnSuccess) with true.
  cbn [option_map fst snd].
  change (kIOReturnSuccess =? kIOReturnSuccess) with true. cbv iota.
  rewrite (sp78_value
             (read_value vk (kIOReturnSuccess, out1) (kIOReturnSuccess, out2))
             b0 b1 (firstn 30 rest)); [reflexivity| | |].
  - unfold read_value, typed_value.
    cbn [SMCVal.set_bytes SMCVal.dataType snd].
    change (strtoul_b (cstr "sp78") 4 16) with (Some 1936734008) in Htype.
    injection Htype as ->. reflexivity.
  - unfold read_value, typed_value, declared_size.
    cbn [SMCVal.set_bytes SMCVal.dataSize snd]. exact Hsize.
  - unfold read_value. cbn [SMCVal.set_bytes SMCVal.bytes snd].
    rewrite Hbytes. reflexivity.
Qed.

Lemma typed_smc_sp78_witness :
  run (typed_smc 1936734008 2 [xff; x80]) (SMCReadKey 7 (cstr "TC0P") 0%float)
      0%nat
  = (Some (kIOReturnSuccess,
           PrimFloat.div (double_of_int (be_int16 xff x80)) 256%float),
     2%nat,
     [(key_info_request 7 1413689424,
       (kIOReturnSuccess,
        SMCParam.mk 0 (SMCParam.mkInfo 2 1936734008 0) 0 0 0 0
                    (repeat NUL 32)));
      (read_bytes_request 7 1413689424 2
         (SMCParam.mk 0 (SMCParam.mkInfo 2 1936734008 0) 0 0 0 0
                      (repeat NUL 32)),
       (kIOReturnSuccess,
        SMCParam.mk 0 (SMCParam.mkInfo 0 0 0) 0 0 0 0
                    ([xff; x80] ++ repeat NUL 30)))]).
Proof.
  apply (SMCReadKey_sp78 (typed_smc 1936734008 2 [xff; x80]) 0%nat 1%nat 2%nat
           7 (cstr "TC0P") 1413689424 0%float
           (SMCParam.mk 0 (SMCParam.mkInfo 2 1936734008 0) 0 0 0 0
                        (repeat NUL 32))
           (SMCParam.mk 0 (SMCParam.mkInfo 0 0 0) 0 0 0 0
                        ([xff; x80] ++ repeat NUL 30))
           xff x80 (repeat NUL 30)); reflexivity.
Defined.

(** ** Opening and closing *)

(** X17.  [SMCOpen] holds the service object it looked up only for the time of
    the open.  When the lookup finds no service it returns
    [kIOReturnError], leaves the caller's location as it was, and neither
    opens nor releases anything.  When it finds one it opens that service
    for the given task, releases that same object exactly once, whether the
    open succeeded or not, and returns the status of the open and the
    connection the open wrote. *)
Theorem SMCOpen_releases_service {K : Type} (io : IOKit K) (s : K)
    (port task : Z) (conn : io_connect_t) :
  let '(service, s1) := IOServiceGetMatchingService io port "AppleSMC" s in
  (service = 0 ->
   run_life io (SMCOpen port task conn) s
   = ((kIOReturnError, conn), s1, [EvGetMatchingService port "AppleSMC"]))
  /\ (service <> 0 ->
      let '(r, s2) := IOServiceOpen io service task 0 conn s1 in
      let '(_, s3) := IOObjectRelease io service s2 in
      run_life io (SMCOpen port task conn) s
      = (r, s3,
         [EvGetMatchingService port "AppleSMC";
          EvServiceOpen service task 0;
          EvObjectRelease service])).
Proof.
  unfold SMCOpen. cbn [run_life].
  destruct (IOServiceGetMatchingService io port "AppleSMC" s)
    as [service s1].
  split.
  - intros ->. reflexivity.
  - intros Hne. apply Z.eqb_neq in Hne. rewrite Hne. cbn [run_life].
    destruct (IOServiceOpen io service task 0 conn s1) as [[st c] s2].
    cbn [fst snd run_life].
    now destruct (IOObjectRelease io service s2) as [r3 s3].
Qed.

Lemma SMCOpen_releases_service_witness :
  run_life no_service (SMCOpen 0 1 5) 0
  = ((kIOReturnError, 5), 0, [EvGetMatchingService 0 "AppleSMC"])
  /\ run_life one_service (SMCOpen 0 1 5) 0
     = ((kIOReturnSuccess, 9), 0,
        [EvGetMatchingService 0 "AppleSMC"; EvServiceOpen 77 1 0;
         EvObjectRelease 77]).
Proof.
  split.
  - apply (proj1 (SMCOpen_releases_service no_service 0 0 1 5)).
    reflexivity.
  - apply (proj2 (SMCOpen_releases_service one_service 0 0 1 5)).
    discriminate.
Defined.
